(** * SGP4X driver (sgp4Xmod.py): a shallow embedding and its properties

    The driver talks to a Sensirion SGP40/SGP41 gas sensor over I2C.  This
    file embeds the protocol engine of [sgp4Xmod.py]: the response metadata
    resolver, the frame encoder, the CRC validation of answers, the two
    value transforms and the public operations of the [SGP4X] class.

    Conventions of the embedding:
    - a Python [int] is a [Z]; a value that may be [None] is an [option Z];
    - [bytes] and [bytearray] objects are lists of [Z] (each in 0..255);
    - a Python [float] is an IEEE binary64 number ([PrimFloat.float]), as in
      CPython and in MicroPython built with double-precision floats;
    - an exception is a constructor of [exn]; a function that may raise
      returns a [result];
    - methods that touch [self] or the bus run in the monad [M], whose state
      survives an exception, as the attributes of a Python object do. *)

From Stdlib Require Import ZArith List Bool Lia String Ascii.
From Stdlib Require Import PrimFloat FloatOps SpecFloat Uint63.
Import ListNotations.
Local Open Scope string_scope.
Local Open Scope list_scope.
Local Open Scope Z_scope.

(* 65.35 and 374.4857142857 are read as the nearest binary64 numbers, as the
   Python parser reads them. *)
Set Warnings "-inexact-float".

(** ** Exceptions *)

(** The texts of the [ValueError]s the module raises, by their f-string. *)
Inductive message : Type :=
| MsgBadAddress (address : Z)
| MsgBadSensorId (sensor_id : Z)
| MsgBadCommand (cmd_code : option Z) (sensor_id : Z)
| MsgBadAnswerLength (answ_length : Z)
| MsgOutOfRange
| MsgBadCrc (calculated_crc crc_from_buf : Z) (buf_len : nat)
| MsgBadBufLength (answ_length : Z)
| MsgByteMustBeInRange
| MsgBadByteOrder
| MsgFloatNaN.

Inductive exn : Type :=
| ValueError (msg : message)
| TypeError
| AttributeError
| IndexError
| OverflowError
| StructError
| OSError.

Inductive result (A : Type) : Type :=
| Ok (a : A)
| Raise (e : exn).

Arguments Ok {A} a.
Arguments Raise {A} e.

Definition bindR {A B : Type} (r : result A) (k : A -> result B) : result B :=
  match r with
  | Ok a => k a
  | Raise e => Raise e
  end.

Declare Scope result_scope.
Delimit Scope result_scope with R.
Notation "x <- c ;; k" := (bindR c (fun x => k))
  (at level 100, c at next level, right associativity) : result_scope.
Notation "c ;; k" := (bindR c (fun _ => k))
  (at level 100, right associativity) : result_scope.

(** ** Python built-ins used by the driver *)

Record range : Type := mk_range { start : Z; stop : Z }.

(** What stands to the right of [in] in the driver: a [range], a tuple. *)
Inductive container : Type :=
| CRange (r : range)
| CTuple (items : list Z).

Definition contains (c : container) (v : Z) : bool :=
  match c with
  | CRange r => (start r <=? v) && (v <? stop r)
  | CTuple items => existsb (Z.eqb v) items
  end.

(** Truth value of an [int] or [None]. *)
Definition truthy (v : option Z) : bool :=
  match v with
  | Some z => negb (z =? 0)
  | None => false
  end.

(** [l[a:b]] for [0 <= a], [0 <= b]. *)
Definition slice (l : list Z) (a b : Z) : list Z :=
  firstn (Z.to_nat (b - a)) (skipn (Z.to_nat a) l).

(** [l[i]]: a negative index counts from the end, out of range raises. *)
Definition getitem (l : list Z) (i : Z) : result Z :=
  let n := Z.of_nat (List.length l) in
  let j := if i <? 0 then i + n else i in
  if (0 <=? j) && (j <? n)
  then match nth_error l (Z.to_nat j) with
       | Some b => Ok b
       | None => Raise IndexError
       end
  else Raise IndexError.

(** [buf[a:b] = v] on a [bytearray]. *)
Definition setslice (buf : list Z) (a b : Z) (v : list Z) : list Z :=
  firstn (Z.to_nat a) buf ++ v ++ skipn (Z.to_nat (Z.max a b)) buf.

Fixpoint set_nth (buf : list Z) (i : nat) (v : Z) : option (list Z) :=
  match buf, i with
  | [], _ => None
  | _ :: tl, O => Some (v :: tl)
  | hd :: tl, S i' => option_map (cons hd) (set_nth tl i' v)
  end.

(** [buf[i] = v] on a [bytearray], [0 <= i]. *)
Definition setitem (buf : list Z) (i : Z) (v : Z) : result (list Z) :=
  if (v <? 0) || (255 <? v) then Raise (ValueError MsgByteMustBeInRange)
  else match set_nth buf (Z.to_nat i) v with
       | Some buf' => Ok buf'
       | None => Raise IndexError
       end.

Fixpoint le_bytes (n : nat) (x : Z) : list Z :=
  match n with
  | O => []
  | S n' => Z.land x 0xFF :: le_bytes n' (Z.shiftr x 8)
  end.

(** [x.to_bytes(length, byteorder)]; [None] has no such method. *)
Definition to_bytes (x : option Z) (length : nat) (byteorder : string)
  : result (list Z) :=
  match x with
  | None => Raise AttributeError
  | Some x =>
      if x <? 0 then Raise OverflowError
      else if 2 ^ (8 * Z.of_nat length) <=? x then Raise OverflowError
      else if String.eqb byteorder "big" then Ok (rev (le_bytes length x))
      else if String.eqb byteorder "little" then Ok (le_bytes length x)
      else Raise (ValueError MsgBadByteOrder)
  end.

(** ** Floating point: [float(int)], [*] and [round] *)

(** [int] to [float]; exact below [2^53], which is all the driver reaches
    (the range checks come first). *)
Definition float_of_int (z : Z) : float :=
  match z with
  | Z0 => PrimFloat.zero
  | Zpos _ => PrimFloat.of_uint63 (Uint63.of_Z z)
  | Zneg _ => PrimFloat.opp (PrimFloat.of_uint63 (Uint63.of_Z (- z)))
  end.

(** The integer nearest to [m * 2^e], ties to the even one. *)
Definition round_half_even (m : positive) (e : Z) : Z :=
  match e with
  | Z0 => Zpos m
  | Zpos _ => Z.shiftl (Zpos m) e
  | Zneg p =>
      let d := Z.shiftl 1 (Zpos p) in
      let q := Zpos m / d in
      let r := Zpos m mod d in
      match (2 * r) ?= d with
      | Lt => q
      | Gt => q + 1
      | Eq => if Z.even q then q else q + 1
      end
  end.

(** Python 3 [round(x)] of a [float]: ties go to the even integer. *)
Definition py_round (x : float) : result Z :=
  match Prim2SF x with
  | S754_zero _ => Ok 0
  | S754_finite s m e =>
      Ok (if s then - round_half_even m e else round_half_even m e)
  | S754_infinity _ => Raise OverflowError
  | S754_nan => Raise (ValueError MsgFloatNaN)
  end.

(** ** The helpers imported from sensor_pack_2 *)

(** Modelled from the spec: [check_value] (sensor_pack_2.base_sensor) is not
    among the sources.  The spec has every range check fail unless the value
    lies in the allowed set; the callers here pass [None] for "no value", and
    a [None] is let through unchecked. *)
Definition check_value (value : option Z) (valid_range : option container)
  (error_msg : message) : result (option Z) :=
  match value with
  | None => Ok None
  | Some v =>
      match valid_range with
      | None => Raise TypeError
      | Some c => if contains c v then Ok value else Raise (ValueError error_msg)
      end
  end.

(** One shift of the CRC register, most significant bit first. *)
Definition crc8_shift (polynomial crc : Z) : Z :=
  if Z.testbit crc 7
  then Z.land 0xFF (Z.lxor (Z.shiftl crc 1) polynomial)
  else Z.land 0xFF (Z.shiftl crc 1).

Definition crc8_byte (polynomial crc item : Z) : Z :=
  Nat.iter 8 (crc8_shift polynomial) (Z.lxor crc (Z.land item 0xFF)).

(** Modelled from the spec: [crc8] (sensor_pack_2.crc_mod) is not among the
    sources.  The spec's checksum unit: an 8-bit CRC over a byte sequence
    with the given polynomial and initial register value, no input or output
    reflection, output not XORed. *)
Definition crc8 (sequence : list Z) (polynomial init_value : Z) : Z :=
  fold_left (crc8_byte polynomial) sequence (Z.land init_value 0xFF).

(** ** Module level of sgp4Xmod.py *)

Definition _calc_crc (sequence : list Z) : Z :=
  crc8 sequence 0x31 0xFF.

Record serial_number_sgp4x : Type :=
  mk_serial_number { word_0 : Z; word_1 : Z; word_2 : Z }.

Record measured_values_sgp4x : Type :=
  mk_measured_values { VOC : Z; NOx : option Z }.

Record answer_params_sgp4x : Type :=
  mk_answer_params { length : Z; wait_time : Z }.

Definition _cmd_execute_conditioning : Z := 0x2612.
Definition _cmd_measure_raw_signal : Z := 0x260F.
Definition _cmd_execute_self_test : Z := 0x280E.
Definition _cmd_turn_heater_off : Z := 0x3615.
Definition _cmd_get_serial_number : Z := 0x3682.

(** [code == cmd_code] where [cmd_code] may be [None]. *)
Definition eq_code (code : Z) (cmd_code : option Z) : bool :=
  match cmd_code with
  | Some c => code =? c
  | None => false
  end.

(** ** Static methods of SGP4X *)

Definition _get_answer_params (cmd_code : option Z) (sensor_id : Z)
  : result answer_params_sgp4x :=
  let '(_wt, _l) := (@None Z, @None Z) in
  let '(_wt, _l) :=
    if eq_code _cmd_turn_heater_off cmd_code then (Some 1, Some 0)
    else (_wt, _l) in
  let '(_wt, _l) :=
    if eq_code _cmd_execute_self_test cmd_code then (Some 320, Some 3)
    else (_wt, _l) in
  let '(_wt, _l) :=
    if (1 =? sensor_id) && eq_code _cmd_execute_conditioning cmd_code
    then (Some 50, Some 3)
    else (_wt, _l) in
  let '(_wt, _l) :=
    if eq_code _cmd_measure_raw_signal cmd_code
    then (if 0 =? sensor_id then (Some 30, Some 3) else (Some 50, Some 6))
    else (_wt, _l) in
  let '(_wt, _l) :=
    if eq_code _cmd_get_serial_number cmd_code then (Some 1, Some 9)
    else (_wt, _l) in
  match _wt, _l with
  | Some wt, Some l => Ok (mk_answer_params l wt)
  | _, _ => Raise (ValueError (MsgBadCommand cmd_code sensor_id))
  end.

(** The index ranges the generator yields, in order.  The length check runs
    when the generator is first advanced. *)
Definition _get_data_place (answ_length : Z) (data : bool)
  : result (list range) :=
  (_ <- check_value (Some answ_length) (Some (CTuple [0; 3; 6; 9]))
          (MsgBadAnswerLength answ_length) ;;
   if 0 =? answ_length then Ok []
   else
     Ok (map (fun index =>
                let _start := 3 * Z.of_nat index in
                if data then mk_range _start (2 + _start)
                else mk_range (2 + _start) (3 + _start))
             (seq 0 (Z.to_nat (answ_length / 3)))))%R.

Definition _check_answer_length (answ_length : Z) : result unit :=
  (_ <- check_value (Some answ_length) (Some (CTuple [0; 3; 6; 9]))
          (MsgBadAnswerLength answ_length) ;;
   Ok tt)%R.

Definition _check_rh_temp (rh temp : option Z) : result unit :=
  let '(_val, _valid_rng) := (@None Z, @None container) in
  let _err_msg := MsgOutOfRange in
  let '(_val, _valid_rng) :=
    if truthy rh then (rh, Some (CRange (mk_range 0 101)))
    else (_val, _valid_rng) in
  let '(_val, _valid_rng) :=
    if truthy temp then (temp, Some (CRange (mk_range (-45) 131)))
    else (_val, _valid_rng) in
  (_ <- check_value _val _valid_rng _err_msg ;;
   Ok tt)%R.

Definition _get_raw_relhum (rel_hum : Z) : result Z :=
  (_ <- _check_rh_temp (Some rel_hum) None ;;
   py_round (PrimFloat.mul 65.35%float (float_of_int rel_hum)))%R.

Definition _get_raw_temp (temperature : Z) : result Z :=
  (_ <- _check_rh_temp None (Some temperature) ;;
   py_round (PrimFloat.mul 374.4857142857%float
               (float_of_int (45 + temperature))))%R.

(** The body of the [for] loop of [_check_answer], over the ranges left. *)
Fixpoint check_places (answer : list Z) (places : list range)
  : result unit :=
  match places with
  | [] => Ok tt
  | data_place :: rest =>
      let calculated_crc :=
        _calc_crc (slice answer (start data_place) (stop data_place)) in
      (crc_from_buf <- getitem answer (stop data_place) ;;
       if negb (calculated_crc =? crc_from_buf)
       then Raise (ValueError (MsgBadCrc calculated_crc crc_from_buf
                                 (List.length answer)))
       else check_places answer rest)%R
  end.

Definition _check_answer (answer : list Z) (answ_length : Z) : result bool :=
  (_ <- _check_answer_length answ_length ;;
   places <- _get_data_place answ_length true ;;
   _ <- check_places answer places ;;
   Ok true)%R.


(** ** The bus, the clock and the driver object *)

(** What the outside world sees of a run. *)
Inductive event : Type :=
| BusWrite (buf : list Z)
| BusRead (buf : list Z)
| SleepMs (ms : Z).

(** Modelled from the spec: [DeviceEx] (sensor_pack_2.base_sensor) is not
    among the sources.  The spec's transport capability, [write(bytes)] and
    [read_exact(buffer)], with the address and the byte order fixed at
    construction; [unpack] decodes a buffer by a struct format in that byte
    order. *)
Record DeviceEx : Type :=
  mk_DeviceEx { address : Z; big_byte_order : bool }.

(** Modelled from the spec: [DeviceEx._get_byteorder_as_str] is not among the
    sources.  The driver takes item 0 as the [byteorder] of [to_bytes] and
    the spec has the command code sent big-endian. *)
Definition _get_byteorder_as_str (dev : DeviceEx) : string * string :=
  if big_byte_order dev then ("big", ">") else ("little", "<").

Record SGP4X : Type := mk_SGP4X {
  _connector : DeviceEx;
  _check_crc : bool;
  _sensor_id : Z;
  _last_cmd_code : option Z;
  _byte_order : string * string;
  _buf_3 : list Z;
  _buf_6 : list Z;
  _cmd_buf : list Z;
  _buf_9 : list Z
}.

(** The bus adapter handed to the constructor, seen from outside: what was
    written to and read from the bus, oldest first (sleeps are recorded too,
    to keep their place among the transfers), and the answers the sensor
    will deliver to the coming reads. *)
Record BusAdapter : Type := mk_BusAdapter {
  trace : list event;
  pending : list (list Z)
}.

(** The driver object and the adapter it is bound to. *)
Record world : Type := mk_world {
  self : SGP4X;
  adapter : BusAdapter
}.

(** State and exceptions: the state is kept when an exception is raised. *)
Definition M (A : Type) : Type := world -> result A * world.

Definition ret {A : Type} (a : A) : M A := fun w => (Ok a, w).

Definition raise {A : Type} (e : exn) : M A := fun w => (Raise e, w).

Definition bind {A B : Type} (m : M A) (k : A -> M B) : M B :=
  fun w =>
    match m w with
    | (Ok a, w') => k a w'
    | (Raise e, w') => (Raise e, w')
    end.

Definition lift {A : Type} (r : result A) : M A := fun w => (r, w).

Declare Scope m_scope.
Delimit Scope m_scope with M.
Notation "x <- c ;; k" := (bind c (fun x => k))
  (at level 100, c at next level, right associativity) : m_scope.
Notation "c ;; k" := (bind c (fun _ => k))
  (at level 100, right associativity) : m_scope.

Definition get_self : M SGP4X := fun w => (Ok (self w), w).

Definition modify_self (f : SGP4X -> SGP4X) : M unit :=
  fun w => (Ok tt, mk_world (f (self w)) (adapter w)).

Definition emit (e : event) : M unit :=
  fun w =>
    (Ok tt, mk_world (self w)
              (mk_BusAdapter (trace (adapter w) ++ [e]) (pending (adapter w)))).

Definition set_last_cmd_code (v : option Z) (s : SGP4X) : SGP4X :=
  mk_SGP4X (_connector s) (_check_crc s) (_sensor_id s) v (_byte_order s)
    (_buf_3 s) (_buf_6 s) (_cmd_buf s) (_buf_9 s).

Definition set_cmd_buf (v : list Z) (s : SGP4X) : SGP4X :=
  mk_SGP4X (_connector s) (_check_crc s) (_sensor_id s) (_last_cmd_code s)
    (_byte_order s) (_buf_3 s) (_buf_6 s) v (_buf_9 s).

(** The answer buffers are shared objects: a method holds one by name. *)
Inductive buf_ref : Type := Buf3 | Buf6 | Buf9.

Definition load (r : buf_ref) (s : SGP4X) : list Z :=
  match r with
  | Buf3 => _buf_3 s
  | Buf6 => _buf_6 s
  | Buf9 => _buf_9 s
  end.

Definition store (r : buf_ref) (v : list Z) (s : SGP4X) : SGP4X :=
  match r with
  | Buf3 => mk_SGP4X (_connector s) (_check_crc s) (_sensor_id s)
              (_last_cmd_code s) (_byte_order s) v (_buf_6 s) (_cmd_buf s)
              (_buf_9 s)
  | Buf6 => mk_SGP4X (_connector s) (_check_crc s) (_sensor_id s)
              (_last_cmd_code s) (_byte_order s) (_buf_3 s) v (_cmd_buf s)
              (_buf_9 s)
  | Buf9 => mk_SGP4X (_connector s) (_check_crc s) (_sensor_id s)
              (_last_cmd_code s) (_byte_order s) (_buf_3 s) (_buf_6 s)
              (_cmd_buf s) v
  end.

(** [time.sleep_ms]: the wait is recorded. *)
Definition sleep_ms (ms : Z) : M unit := emit (SleepMs ms).

(** Modelled from the spec: [DeviceEx.write] is not among the sources.  The
    spec's [write(bytes)]: the bytes go out on the bus.  A bus that fails to
    take them is outside the model. *)
Definition write (buf : list Z) : M unit := emit (BusWrite buf).

(** Modelled from the spec: [DeviceEx.read_to_buf] is not among the sources.
    The spec's [read_exact(buffer)]: it fills the buffer with as many bytes
    as it holds, taken from the sensor's next answer; the transport fails
    when the sensor has no answer of that size. *)
Definition read_to_buf (r : buf_ref) : M unit :=
  fun w =>
    match pending (adapter w) with
    | answer :: rest =>
        if Nat.eqb (List.length answer) (List.length (load r (self w)))
        then (Ok tt, mk_world (store r answer (self w))
                       (mk_BusAdapter (trace (adapter w) ++ [BusRead answer])
                          rest))
        else (Raise OSError, w)
    | [] => (Raise OSError, w)
    end.

(** Fields of a struct format: [H] is a 16-bit unsigned word, [B] a byte.
    As in MicroPython's [struct], a buffer too small for the format raises
    and bytes past the format are left unread ([get_id] unpacks 8 of its 9
    bytes). *)
Fixpoint unpack_fields (big : bool) (fmt : list ascii) (source : list Z)
  : result (list Z) :=
  match fmt with
  | [] => Ok []
  | c :: fmt' =>
      if Ascii.eqb c "H" then
        match source with
        | b0 :: b1 :: source' =>
            (fields <- unpack_fields big fmt' source' ;;
             Ok ((if big then 256 * b0 + b1 else 256 * b1 + b0) :: fields))%R
        | _ => Raise StructError
        end
      else if Ascii.eqb c "B" then
        match source with
        | b0 :: source' =>
            (fields <- unpack_fields big fmt' source' ;;
             Ok (b0 :: fields))%R
        | [] => Raise StructError
        end
      else Raise StructError
  end.

(** Modelled from the spec: [DeviceEx.unpack] is not among the sources.  The
    spec's unpacking of an answer into 16-bit words and bytes:
    [struct.unpack] with the format given, in the device's byte order. *)
Definition unpack (dev : DeviceEx) (fmt_char : string)
  (source : option (list Z)) : result (list Z) :=
  match source with
  | None => Raise TypeError
  | Some source =>
      unpack_fields (big_byte_order dev) (list_ascii_of_string fmt_char)
        source
  end.

(** [t[i]] on a tuple. *)
Definition tuple_item (t : list Z) (i : nat) : result Z :=
  match nth_error t i with
  | Some v => Ok v
  | None => Raise IndexError
  end.

(** ** Methods of SGP4X *)

(** The constructor, over the state of the adapter it is given. *)
Definition __init__ (address sensor_id : Z) (check_crc : bool)
  (adapter : BusAdapter) : result SGP4X * BusAdapter :=
  ((_ <- check_value (Some address) (Some (CRange (mk_range 0x59 0x5A)))
           (MsgBadAddress address) ;;
    _ <- check_value (Some sensor_id) (Some (CRange (mk_range 0 2)))
           (MsgBadSensorId sensor_id) ;;
    let _connector := mk_DeviceEx address true in
    Ok (mk_SGP4X _connector check_crc sensor_id None
          (_get_byteorder_as_str _connector)
          (repeat 0 3) (repeat 0 6) (repeat 0 8) (repeat 0 9)))%R,
   adapter).

Definition get_last_cmd_code : M (option Z) :=
  (s <- get_self ;; ret (_last_cmd_code s))%M.

Definition get_sensor_id : M Z :=
  (s <- get_self ;; ret (_sensor_id s))%M.

Definition _get_buf_by_answ_length (answ_length : Z) : M (option buf_ref) :=
  (_ <- lift (_check_answer_length answ_length) ;;
   if 0 =? answ_length then ret None
   else if 3 =? answ_length then ret (Some Buf3)
   else if 6 =? answ_length then ret (Some Buf6)
   else if 9 =? answ_length then ret (Some Buf9)
   else raise (ValueError (MsgBadBufLength answ_length)))%M.

Definition _send_command (cmd_code : Z) (raw_rel_hum raw_temp : option Z)
  : M unit :=
  (s <- get_self ;;
   let _cmd_with_params := forallb truthy [raw_rel_hum; raw_temp] in
   let _bo := fst (_byte_order s) in
   _cmd_buf <-
     (if _cmd_with_params then
        code <- lift (to_bytes (Some cmd_code) 2 _bo) ;;
        modify_self (fun s => set_cmd_buf (setslice (_cmd_buf s) 0 2 code) s) ;;
        rh <- lift (to_bytes raw_rel_hum 2 _bo) ;;
        modify_self (fun s => set_cmd_buf (setslice (_cmd_buf s) 2 4 rh) s) ;;
        t <- lift (to_bytes raw_temp 2 _bo) ;;
        modify_self (fun s => set_cmd_buf (setslice (_cmd_buf s) 5 7 t) s) ;;
        s <- get_self ;;
        b4 <- lift (setitem (_cmd_buf s) 4
                      (_calc_crc (slice (_cmd_buf s) 2 4))) ;;
        modify_self (set_cmd_buf b4) ;;
        s <- get_self ;;
        b7 <- lift (setitem (_cmd_buf s) 7
                      (_calc_crc (slice (_cmd_buf s) 5 7))) ;;
        modify_self (set_cmd_buf b7) ;;
        s <- get_self ;;
        ret (_cmd_buf s)
      else
        lift (to_bytes (Some cmd_code) 2 _bo)) ;;
   write _cmd_buf ;;
   modify_self (set_last_cmd_code (Some cmd_code)))%M.

Definition _read_answer : M (option (list Z)) :=
  (_cmd <- get_last_cmd_code ;;
   sensor_id <- get_sensor_id ;;
   _ap <- lift (_get_answer_params _cmd sensor_id) ;;
   let _al := length _ap in
   if 0 =? _al then ret None
   else
     _buf <- _get_buf_by_answ_length _al ;;
     match _buf with
     | None => raise TypeError
     | Some r =>
         read_to_buf r ;;
         s <- get_self ;;
         (if _check_crc s
          then _ <- lift (_check_answer (load r s) _al) ;; ret tt
          else ret tt) ;;
         s <- get_self ;;
         ret (Some (load r s))
     end)%M.

Definition _send_command_and_read_answer (cmd_code : Z)
  (unpack_format : string) (with_params : bool)
  (rel_hum temperature : option Z) : M (list Z) :=
  ((if with_params then
      lift (_check_rh_temp rel_hum temperature) ;;
      raw_temp <- lift (match temperature with
                        | Some t => _get_raw_temp t
                        | None => Raise TypeError
                        end) ;;
      raw_rh <- lift (match rel_hum with
                      | Some rh => _get_raw_relhum rh
                      | None => Raise TypeError
                      end) ;;
      _send_command cmd_code (Some raw_rh) (Some raw_temp)
    else
      _send_command cmd_code None None) ;;
   sensor_id <- get_sensor_id ;;
   _ap <- lift (_get_answer_params (Some cmd_code) sensor_id) ;;
   sleep_ms (wait_time _ap) ;;
   _buf <- _read_answer ;;
   s <- get_self ;;
   lift (unpack (_connector s) unpack_format _buf))%M.

Definition get_id : M serial_number_sgp4x :=
  (_t <- _send_command_and_read_answer _cmd_get_serial_number "HBHBH"
           false None None ;;
   w0 <- lift (tuple_item _t 0) ;;
   w1 <- lift (tuple_item _t 2) ;;
   w2 <- lift (tuple_item _t 4) ;;
   ret (mk_serial_number w0 w1 w2))%M.

Definition turn_heater_off : M unit :=
  _send_command _cmd_turn_heater_off None None.

Definition execute_self_test : M Z :=
  (_t <- _send_command_and_read_answer _cmd_execute_self_test "HB"
           false None None ;;
   lift (tuple_item _t 0))%M.

Definition execute_conditioning (rel_hum temperature : Z)
  : M measured_values_sgp4x :=
  (t <- _send_command_and_read_answer _cmd_execute_conditioning "HB"
          true (Some rel_hum) (Some temperature) ;;
   voc <- lift (tuple_item t 0) ;;
   ret (mk_measured_values voc None))%M.

Definition measure_raw_signal (rel_hum temperature : Z)
  : M measured_values_sgp4x :=
  (sen_id <- get_sensor_id ;;
   let fmt := if truthy (Some sen_id) then "HBHB" else "HB" in
   _t <- _send_command_and_read_answer _cmd_measure_raw_signal fmt
           true (Some rel_hum) (Some temperature) ;;
   _NOx <- (if truthy (Some sen_id)
            then v <- lift (tuple_item _t 2) ;; ret (Some v)
            else ret None) ;;
   voc <- lift (tuple_item _t 0) ;;
   ret (mk_measured_values voc _NOx))%M.

(** ** main.py *)

(** [try: body finally: final]: [final] runs whatever [body] did; what it
    raises replaces [body]'s outcome. *)
Definition try_finally {A : Type} (body : M A) (final : M unit) : M A :=
  fun w =>
    match body w with
    | (r, w') =>
        match final w' with
        | (Ok _, w'') => (r, w'')
        | (Raise e, w'') => (Raise e, w'')
        end
    end.






(** * Vocabulary of the properties *)

(** ** Commands and frames *)

(** The five command codes the driver knows. *)
Definition command_codes : list Z :=
  [_cmd_turn_heater_off; _cmd_execute_self_test; _cmd_execute_conditioning;
   _cmd_measure_raw_signal; _cmd_get_serial_number].

(** High and low byte of a 16-bit value. *)
Definition hi (x : Z) : Z := Z.shiftr x 8.
Definition lo (x : Z) : Z := Z.land x 0xFF.

(** The 8-byte frame of a command with both compensation values. *)
Definition frame_with_params (cmd_code raw_rel_hum raw_temp : Z) : list Z :=
  [hi cmd_code; lo cmd_code;
   hi raw_rel_hum; lo raw_rel_hum; _calc_crc [hi raw_rel_hum; lo raw_rel_hum];
   hi raw_temp; lo raw_temp; _calc_crc [hi raw_temp; lo raw_temp]].

(** A data word as the encoder frames it: two bytes and their checksum. *)
Definition encode_group (d : Z * Z) : list Z :=
  [fst d; snd d; _calc_crc [fst d; snd d]].

(** ** Groups of an answer *)

(** The checksum byte the buffer stores for group [i], if it reaches that
    far. *)
Definition stored_crc (answer : list Z) (i : nat) : option Z :=
  nth_error answer (3 * i + 2).

(** The two data bytes of group [i]. *)
Definition data_pair (answer : list Z) (i : nat) : list Z :=
  firstn 2 (skipn (3 * i) answer).

(** The index ranges of group [i]: data at [3i, 3i+2), checksum at
    [3i+2, 3i+3). *)
Definition data_range (i : nat) : range :=
  mk_range (3 * Z.of_nat i) (2 + 3 * Z.of_nat i).

Definition crc_range (i : nat) : range :=
  mk_range (2 + 3 * Z.of_nat i) (3 + 3 * Z.of_nat i).

(** The [i]-th 16-bit data word of an answer, big-endian. *)
Definition data_word (answer : list Z) (i : nat) : Z :=
  256 * nth (3 * i) answer 0 + nth (3 * i + 1) answer 0.

(** ** Value transforms *)

(** The spec's words for the humidity transform: the raw value is
    [rh * 65535 / 1000], rounded half away from zero. *)
Definition round_div_half_away (n d : Z) : Z :=
  Z.sgn n * ((2 * Z.abs n + d) / (2 * d)).

Definition spec_raw_humidity (rh_percent : Z) : Z :=
  round_div_half_away (rh_percent * 65535) 1000.

(** [P] holds of the [n] integers from [lo] on. *)
Fixpoint all_from (P : Z -> bool) (lo : Z) (n : nat) : bool :=
  match n with
  | O => true
  | S n' => P lo && all_from P (lo + 1) n'
  end.

(** Checks run over the whole valid range of each transform.  The transform
    returns the rounded product, and that is within 1/2 of the exact decimal
    product ([65.35 = 1307/20], [374.4857142857 = 3744857142857/10^10]). *)
Definition relhum_in_range_ok (rh : Z) : bool :=
  match _get_raw_relhum rh,
        py_round (PrimFloat.mul 65.35%float (float_of_int rh)) with
  | Ok raw, Ok r => (raw =? r) && (Z.abs (20 * raw - 1307 * rh) <=? 10)
  | _, _ => false
  end.

Definition temp_in_range_ok (t : Z) : bool :=
  match _get_raw_temp t,
        py_round (PrimFloat.mul 374.4857142857%float
                    (float_of_int (45 + t))) with
  | Ok raw, Ok r =>
      (raw =? r)
      && (Z.abs (10000000000 * raw - 3744857142857 * (45 + t))
          <=? 5000000000)
  | _, _ => false
  end.

(** The raw value fits 16 bits, and is 0 only at the lower end of the
    range. *)
Definition relhum_raw_ok (rh : Z) : bool :=
  match _get_raw_relhum rh with
  | Ok raw => (0 <=? raw) && (raw <? 65536) && Bool.eqb (raw =? 0) (rh =? 0)
  | Raise _ => false
  end.

Definition temp_raw_ok (t : Z) : bool :=
  match _get_raw_temp t with
  | Ok raw => (0 <=? raw) && (raw <? 65536) && Bool.eqb (raw =? 0) (t =? -45)
  | Raise _ => false
  end.

(** ** Sessions *)

(** What the constructor establishes and every method keeps. *)
Record constructed (s : SGP4X) : Prop := mk_constructed {
  constructed_byte_order : _byte_order s = ("big", ">");
  constructed_connector : big_byte_order (_connector s) = true;
  constructed_sensor_id : _sensor_id s = 0 \/ _sensor_id s = 1;
  constructed_buf_3 : List.length (_buf_3 s) = 3%nat;
  constructed_buf_6 : List.length (_buf_6 s) = 6%nat;
  constructed_cmd_buf : List.length (_cmd_buf s) = 8%nat;
  constructed_buf_9 : List.length (_buf_9 s) = 9%nat
}.

(** The object [__init__] builds for address 0x59. *)
Definition initial (sensor_id : Z) (check_crc : bool) : SGP4X :=
  mk_SGP4X (mk_DeviceEx 0x59 true) check_crc sensor_id None ("big", ">")
    (repeat 0 3) (repeat 0 6) (repeat 0 8) (repeat 0 9).

(** A freshly constructed session on a quiet bus, with the answers the
    sensor will give. *)
Definition fresh_world (sensor_id : Z) (check_crc : bool)
  (answers : list (list Z)) : world :=
  mk_world (initial sensor_id check_crc) (mk_BusAdapter [] answers).

(** The world after a command was sent as [frame], [cmd_buf] being the
    content of the command buffer then. *)
Definition sent (cmd_code : Z) (frame cmd_buf : list Z) (w : world) : world :=
  mk_world (set_last_cmd_code (Some cmd_code) (set_cmd_buf cmd_buf (self w)))
    (mk_BusAdapter (trace (adapter w) ++ [BusWrite frame])
       (pending (adapter w))).

(** ** What a run leaves behind *)

(** The events [P] lets on the bus: any read, any sleep, and the writes
    whose frame satisfies [F]. *)
Definition writes_only (F : list Z -> Prop) (e : event) : Prop :=
  match e with
  | BusWrite frame => F frame
  | BusRead _ => True
  | SleepMs _ => True
  end.

(** From [w] to [w']: the session is still constructed, its configuration
    (connector, CRC flag, sensor id) is the same, and the trace has grown by
    events that satisfy [P]. *)
Definition extends_by (P : event -> Prop) (w w' : world) : Prop :=
  constructed (self w') /\
  _connector (self w') = _connector (self w) /\
  _check_crc (self w') = _check_crc (self w) /\
  _sensor_id (self w') = _sensor_id (self w) /\
  exists suffix : list event,
    trace (adapter w') = trace (adapter w) ++ suffix /\ Forall P suffix.

(** [m] does so from every constructed session, whatever its outcome. *)
Definition respects {A : Type} (P : event -> Prop) (m : M A) : Prop :=
  forall w : world, constructed (self w) -> extends_by P w (snd (m w)).

(** A frame that opens with the two bytes of [cmd_code]. *)
Definition frame_of (cmd_code : Z) (frame : list Z) : Prop :=
  firstn 2 frame = [hi cmd_code; lo cmd_code].


(** The second half of [_send_command_and_read_answer], after the command
    went out: metadata, wait, read and unpack. *)
Definition answer_phase (cmd_code : Z) (unpack_format : string)
  : M (list Z) :=
  (sensor_id <- get_sensor_id ;;
   _ap <- lift (_get_answer_params (Some cmd_code) sensor_id) ;;
   sleep_ms (wait_time _ap) ;;
   _buf <- _read_answer ;;
   s <- get_self ;;
   lift (unpack (_connector s) unpack_format _buf))%M.

(** The buffer [_get_buf_by_answ_length] hands out for a length. *)
Definition buf_for (answ_length : Z) : option buf_ref :=
  if 3 =? answ_length then Some Buf3
  else if 6 =? answ_length then Some Buf6
  else if 9 =? answ_length then Some Buf9
  else None.

(** The world after an answer was waited for and read into buffer [r]. *)
Definition answered (wait : Z) (r : buf_ref) (answer : list Z)
  (rest : list (list Z)) (w : world) : world :=
  mk_world (store r answer (self w))
    (mk_BusAdapter (trace (adapter w) ++ [SleepMs wait; BusRead answer])
       rest).

(** * Properties *)

(** ** The response metadata resolver *)

(** The five cases of a command code, and the case of none. *)
Ltac split_codes c :=
  unfold _get_answer_params, eq_code, command_codes,
    _cmd_turn_heater_off, _cmd_execute_self_test, _cmd_execute_conditioning,
    _cmd_measure_raw_signal, _cmd_get_serial_number;
  destruct (Z.eqb_spec 0x3615 c);
  [ subst c | destruct (Z.eqb_spec 0x280E c);
  [ subst c | destruct (Z.eqb_spec 0x2612 c);
  [ subst c | destruct (Z.eqb_spec 0x260F c);
  [ subst c | destruct (Z.eqb_spec 0x3682 c);
  [ subst c | ] ] ] ] ].

(** C1: for a command code [c] and a sensor id [v] in {0, 1} the resolver
    returns the table's pair, (length, wait time): heater off (0, 1), self
    test (3, 320), conditioning (3, 50) on id 1, raw signal (3, 30) on id 0
    and (6, 50) on id 1, serial number (9, 1); it raises exactly when [c] is
    none of the five codes or is conditioning with id 0, and what it raises
    is the ValueError on the command code and the sensor id. *)
Theorem get_answer_params_table :
  forall c v : Z,
    v = 0 \/ v = 1 ->
    (c = _cmd_turn_heater_off ->
     _get_answer_params (Some c) v = Ok (mk_answer_params 0 1)) /\
    (c = _cmd_execute_self_test ->
     _get_answer_params (Some c) v = Ok (mk_answer_params 3 320)) /\
    (c = _cmd_execute_conditioning -> v = 1 ->
     _get_answer_params (Some c) v = Ok (mk_answer_params 3 50)) /\
    (c = _cmd_measure_raw_signal -> v = 0 ->
     _get_answer_params (Some c) v = Ok (mk_answer_params 3 30)) /\
    (c = _cmd_measure_raw_signal -> v = 1 ->
     _get_answer_params (Some c) v = Ok (mk_answer_params 6 50)) /\
    (c = _cmd_get_serial_number ->
     _get_answer_params (Some c) v = Ok (mk_answer_params 9 1)) /\
    ((exists e, _get_answer_params (Some c) v = Raise e) <->
     (~ In c command_codes \/ (c = _cmd_execute_conditioning /\ v = 0))) /\
    (forall e, _get_answer_params (Some c) v = Raise e ->
               e = ValueError (MsgBadCommand (Some c) v)).
Proof.
  intros c v Hv.
  repeat split;
    try (intros; subst;
         first [reflexivity | destruct Hv; subst; reflexivity]).
  - split_codes c; destruct Hv; subst v; cbn; intros [e He];
      try discriminate He; auto;
      left; intros Hin; intuition congruence.
  - split_codes c; destruct Hv; subst v; cbn;
      intros [Hn | [Hc Hv]]; try discriminate;
      try (exfalso; apply Hn; cbn; tauto);
      try (exfalso; congruence); eauto.
  - split_codes c; destruct Hv; subst v; cbn; intros e He;
      congruence.
Qed.

Lemma get_answer_params_table_witness :
  (1 = 0 \/ 1 = 1) /\
  _get_answer_params (Some _cmd_measure_raw_signal) 1
  = Ok (mk_answer_params 6 50).
Proof.
  split.
  - right; reflexivity.
  - apply (get_answer_params_table _cmd_measure_raw_signal 1);
      [right; reflexivity | reflexivity | reflexivity].
Defined.

(** ** Validation of an answer *)

Lemma getitem_nat (l : list Z) (k : nat) :
  getitem l (Z.of_nat k) =
  match nth_error l k with
  | Some b => Ok b
  | None => Raise IndexError
  end.
Proof.
  unfold getitem.
  destruct (Z.ltb_spec (Z.of_nat k) 0) as [Hneg | _]; [lia |].
  rewrite Nat2Z.id.
  destruct (nth_error l k) as [b |] eqn:Hnth.
  - assert (Hlt : (k < List.length l)%nat)
      by (apply nth_error_Some; congruence).
    destruct (Z.leb_spec 0 (Z.of_nat k)); [| lia].
    destruct (Z.ltb_spec (Z.of_nat k) (Z.of_nat (List.length l)));
      [reflexivity | lia].
  - destruct (_ && _); reflexivity.
Qed.

Lemma getitem_data_stop (answer : list Z) (i : nat) :
  getitem answer (stop (data_range i)) =
  match stored_crc answer i with
  | Some b => Ok b
  | None => Raise IndexError
  end.
Proof.
  unfold stored_crc, data_range; cbn [stop].
  replace (2 + 3 * Z.of_nat i) with (Z.of_nat (3 * i + 2)) by lia.
  apply getitem_nat.
Qed.

Lemma slice_data_range (answer : list Z) (i : nat) :
  slice answer (start (data_range i)) (stop (data_range i))
  = data_pair answer i.
Proof.
  unfold slice, data_pair, data_range; cbn [start stop].
  replace (Z.to_nat (2 + 3 * Z.of_nat i - 3 * Z.of_nat i)) with 2%nat by lia.
  replace (Z.to_nat (3 * Z.of_nat i)) with (3 * i)%nat by lia.
  reflexivity.
Qed.

(** The loop over the groups [idxs]: it passes when every group's stored byte
    is the checksum of its data pair. *)
Lemma check_places_pass (answer : list Z) (idxs : list nat) :
  check_places answer (map data_range idxs) = Ok tt <->
  (forall i, In i idxs ->
             stored_crc answer i = Some (_calc_crc (data_pair answer i))).
Proof.
  induction idxs as [| i idxs IH]; cbn [map check_places].
  - split; [intros _ i [] | reflexivity].
  - rewrite getitem_data_stop, slice_data_range.
    destruct (stored_crc answer i) as [b |] eqn:Hb; cbn [bindR].
    + destruct (Z.eqb_spec (_calc_crc (data_pair answer i)) b) as [He | Hne];
        cbn [negb].
      * rewrite IH. split.
        -- intros H j [<- | Hj]; [congruence | auto].
        -- intros H j Hj. apply H. now right.
      * split; [discriminate |].
        intros H. specialize (H i (or_introl eq_refl)). congruence.
    + split; [discriminate |].
      intros H. specialize (H i (or_introl eq_refl)). congruence.
Qed.

(** The loop stops at the first group that does not validate. *)
Lemma check_places_first_failure (answer : list Z) (good : list nat)
  (i : nat) (rest : list nat) :
  (forall j, In j good ->
             stored_crc answer j = Some (_calc_crc (data_pair answer j))) ->
  check_places answer (map data_range (good ++ i :: rest)) =
  match stored_crc answer i with
  | None => Raise IndexError
  | Some b =>
      if _calc_crc (data_pair answer i) =? b
      then check_places answer (map data_range rest)
      else Raise (ValueError (MsgBadCrc (_calc_crc (data_pair answer i)) b
                                (List.length answer)))
  end.
Proof.
  induction good as [| j good IH]; intros Hgood; cbn [app map check_places].
  - rewrite getitem_data_stop, slice_data_range.
    destruct (stored_crc answer i) as [b |]; cbn [bindR]; [| reflexivity].
    destruct (_ =? _); reflexivity.
  - rewrite getitem_data_stop, slice_data_range.
    rewrite (Hgood j (or_introl eq_refl)); cbn [bindR].
    rewrite Z.eqb_refl; cbn [negb].
    apply IH. intros k Hk. apply Hgood. now right.
Qed.

Lemma answ_length_cases (answ_length : Z) :
  In answ_length [0; 3; 6; 9] ->
  answ_length = 0 \/ answ_length = 3 \/ answ_length = 6 \/ answ_length = 9.
Proof. cbn. intuition congruence. Qed.

Lemma _check_answer_length_ok (answ_length : Z) :
  In answ_length [0; 3; 6; 9] -> _check_answer_length answ_length = Ok tt.
Proof.
  intros H. apply answ_length_cases in H.
  destruct H as [-> | [-> | [-> | ->]]]; reflexivity.
Qed.

Lemma _check_answer_length_bad (answ_length : Z) :
  ~ In answ_length [0; 3; 6; 9] ->
  _check_answer_length answ_length
  = Raise (ValueError (MsgBadAnswerLength answ_length)).
Proof.
  intros H. unfold _check_answer_length, check_value, contains.
  cbn [existsb].
  destruct (Z.eqb_spec answ_length 0); [exfalso; apply H; cbn; auto |].
  destruct (Z.eqb_spec answ_length 3); [exfalso; apply H; cbn; auto |].
  destruct (Z.eqb_spec answ_length 6); [exfalso; apply H; cbn; auto |].
  destruct (Z.eqb_spec answ_length 9); [exfalso; apply H; cbn; auto |].
  reflexivity.
Qed.

Lemma _get_data_place_groups (answ_length : Z) :
  In answ_length [0; 3; 6; 9] ->
  _get_data_place answ_length true
  = Ok (map data_range (seq 0 (Z.to_nat (answ_length / 3)))) /\
  _get_data_place answ_length false
  = Ok (map crc_range (seq 0 (Z.to_nat (answ_length / 3)))).
Proof.
  intros H. apply answ_length_cases in H.
  destruct H as [-> | [-> | [-> | ->]]]; split; reflexivity.
Qed.

Lemma _check_answer_unfold (answer : list Z) (answ_length : Z) :
  In answ_length [0; 3; 6; 9] ->
  _check_answer answer answ_length =
  (_ <- check_places answer
          (map data_range (seq 0 (Z.to_nat (answ_length / 3)))) ;;
   Ok true)%R.
Proof.
  intros H. unfold _check_answer.
  rewrite (_check_answer_length_ok _ H).
  destruct (_get_data_place_groups _ H) as [-> _].
  reflexivity.
Qed.

Lemma seq_split_at (n i : nat) :
  (i < n)%nat -> seq 0 n = seq 0 i ++ i :: seq (S i) (n - S i).
Proof.
  intros Hi.
  replace n with (i + S (n - S i))%nat at 1 by lia.
  rewrite seq_app. reflexivity.
Qed.

(** C3: validation of an answer of expected length [answ_length].  A length
    outside {0, 3, 6, 9} raises the ValueError on the length.  Otherwise the
    buffer is read as [answ_length / 3] groups, the data of group [i] at
    offsets [3i, 3i+2) and its checksum byte at [3i+2, 3i+3); the first group
    whose stored byte differs from the checksum recomputed over its data
    pair raises the ValueError on the CRC (there is no other result: nothing
    validated so far is returned); the check answers True exactly when every
    group's stored byte is the recomputed checksum. *)
Theorem check_answer_validation :
  forall (answer : list Z) (answ_length : Z),
    (~ In answ_length [0; 3; 6; 9] ->
     _check_answer answer answ_length
     = Raise (ValueError (MsgBadAnswerLength answ_length))) /\
    (In answ_length [0; 3; 6; 9] ->
     let n := Z.to_nat (answ_length / 3) in
     _get_data_place answ_length true = Ok (map data_range (seq 0 n)) /\
     _get_data_place answ_length false = Ok (map crc_range (seq 0 n)) /\
     (forall (i : nat) (b : Z),
         (i < n)%nat ->
         (forall j, (j < i)%nat ->
            stored_crc answer j = Some (_calc_crc (data_pair answer j))) ->
         stored_crc answer i = Some b ->
         b <> _calc_crc (data_pair answer i) ->
         _check_answer answer answ_length
         = Raise (ValueError (MsgBadCrc (_calc_crc (data_pair answer i)) b
                                (List.length answer)))) /\
     (_check_answer answer answ_length = Ok true <->
      forall i, (i < n)%nat ->
        stored_crc answer i = Some (_calc_crc (data_pair answer i)))).
Proof.
  intros answer answ_length. split.
  - intros H. unfold _check_answer.
    rewrite (_check_answer_length_bad _ H). reflexivity.
  - intros H n.
    destruct (_get_data_place_groups _ H) as [Hdata Hcrc].
    repeat split; try assumption.
    + intros i b Hi Hgood Hb Hne.
      rewrite (_check_answer_unfold _ _ H).
      fold n. rewrite (seq_split_at n i Hi).
      rewrite check_places_first_failure.
      * rewrite Hb.
        destruct (Z.eqb_spec (_calc_crc (data_pair answer i)) b);
          [congruence | reflexivity].
      * intros j Hj. apply Hgood. apply in_seq in Hj. lia.
    + intros Hok i Hi.
      rewrite (_check_answer_unfold _ _ H) in Hok. fold n in Hok.
      destruct (check_places answer (map data_range (seq 0 n))) as [[] |]
        eqn:Hloop; [| discriminate].
      apply (proj1 (check_places_pass answer (seq 0 n)) Hloop).
      apply in_seq. lia.
    + intros Hall.
      rewrite (_check_answer_unfold _ _ H). fold n.
      rewrite (proj2 (check_places_pass answer (seq 0 n))); [reflexivity |].
      intros i Hi. apply Hall. apply in_seq in Hi. lia.
Qed.

Lemma check_answer_validation_witness :
  In 6 [0; 3; 6; 9] /\
  _check_answer [0xBE; 0xEF; 0x92; 0x12; 0x34; 0x00] 6
  = Raise (ValueError (MsgBadCrc 0x37 0x00 6)).
Proof.
  assert (H : In 6 [0; 3; 6; 9]) by (cbn; tauto).
  split; [exact H |].
  destruct (proj2 (check_answer_validation
                     [0xBE; 0xEF; 0x92; 0x12; 0x34; 0x00] 6) H)
    as (_ & _ & Hbad & _).
  apply (Hbad 1%nat 0x00).
  - cbn; lia.
  - intros [| j] Hj; [reflexivity | lia].
  - reflexivity.
  - vm_compute; discriminate.
Defined.

(** ** The value transforms *)

Lemma all_from_spec (P : Z -> bool) (n : nat) :
  forall lo, all_from P lo n = true ->
             forall z, lo <= z < lo + Z.of_nat n -> P z = true.
Proof.
  induction n as [| n IH]; intros lo Hall z Hz.
  - lia.
  - cbn [all_from] in Hall. apply andb_true_iff in Hall as [Hlo Hrest].
    destruct (Z.eq_dec z lo) as [-> | Hne]; [exact Hlo |].
    apply (IH (lo + 1) Hrest). lia.
Qed.

Lemma _check_rh_temp_rh (rh : Z) :
  _check_rh_temp (Some rh) None =
  if (0 <=? rh) && (rh <? 101) then Ok tt
  else Raise (ValueError MsgOutOfRange).
Proof.
  unfold _check_rh_temp, truthy, check_value, contains; cbn [start stop].
  destruct (Z.eqb_spec rh 0) as [-> | Hne]; cbn [negb]; [reflexivity |].
  destruct (_ && _); reflexivity.
Qed.

Lemma _check_rh_temp_temp (temp : Z) :
  _check_rh_temp None (Some temp) =
  if (-45 <=? temp) && (temp <? 131) then Ok tt
  else Raise (ValueError MsgOutOfRange).
Proof.
  unfold _check_rh_temp, truthy, check_value, contains; cbn [start stop].
  destruct (Z.eqb_spec temp 0) as [-> | Hne]; cbn [negb]; [reflexivity |].
  destruct (_ && _); reflexivity.
Qed.

Lemma _get_raw_relhum_rejects (rh : Z) :
  rh < 0 \/ 100 < rh ->
  _get_raw_relhum rh = Raise (ValueError MsgOutOfRange).
Proof.
  intros Hout. unfold _get_raw_relhum. rewrite _check_rh_temp_rh.
  destruct (Z.leb_spec 0 rh); destruct (Z.ltb_spec rh 101);
    cbn [andb bindR]; try reflexivity; lia.
Qed.

Lemma _get_raw_temp_rejects (t : Z) :
  t < -45 \/ 130 < t ->
  _get_raw_temp t = Raise (ValueError MsgOutOfRange).
Proof.
  intros Hout. unfold _get_raw_temp. rewrite _check_rh_temp_temp.
  destruct (Z.leb_spec (-45) t); destruct (Z.ltb_spec t 131);
    cbn [andb bindR]; try reflexivity; lia.
Qed.

(** C4, as the code has it: the humidity transform raises the ValueError on
    the range unless [0 <= rh <= 100]; for an [rh] in range it returns
    [round(65.35 * rh)], the binary64 product rounded to the nearest integer
    (ties to even), which lies within 1/2 of [65.35 * rh]; it returns 0 for
    0 and 6535 for 100, and raises for 101. *)
Theorem get_raw_relhum_spec :
  forall rh : Z,
    (rh < 0 \/ 100 < rh ->
     _get_raw_relhum rh = Raise (ValueError MsgOutOfRange)) /\
    (0 <= rh <= 100 ->
     exists raw,
       _get_raw_relhum rh = Ok raw /\
       py_round (PrimFloat.mul 65.35%float (float_of_int rh)) = Ok raw /\
       Z.abs (20 * raw - 1307 * rh) <= 10) /\
    _get_raw_relhum 0 = Ok 0 /\
    _get_raw_relhum 100 = Ok 6535 /\
    _get_raw_relhum 101 = Raise (ValueError MsgOutOfRange).
Proof.
  intros rh.
  split; [| split; [| repeat split; vm_compute; reflexivity]].
  - apply _get_raw_relhum_rejects.
  - intros Hin.
    assert (Hall : all_from relhum_in_range_ok 0 101 = true)
      by (vm_compute; reflexivity).
    assert (Hrh : relhum_in_range_ok rh = true)
      by (apply (all_from_spec _ _ _ Hall); lia).
    unfold relhum_in_range_ok in Hrh.
    destruct (_get_raw_relhum rh) as [raw |]; [| discriminate].
    destruct (py_round _) as [r |]; [| discriminate].
    apply andb_true_iff in Hrh as [Heq Hnear].
    apply Z.eqb_eq in Heq. apply Z.leb_le in Hnear. subst r.
    exists raw. auto.
Qed.

Lemma get_raw_relhum_spec_witness :
  0 <= 50 <= 100 /\
  exists raw,
    _get_raw_relhum 50 = Ok raw /\
    py_round (PrimFloat.mul 65.35%float (float_of_int 50)) = Ok raw /\
    Z.abs (20 * raw - 1307 * 50) <= 10.
Proof.
  assert (H : 0 <= 50 <= 100) by lia.
  split; [exact H |].
  exact (proj1 (proj2 (get_raw_relhum_spec 50)) H).
Defined.

(** C4, as the claim states it, fails at [rh = 100]: the code returns 6535,
    neither 6553 nor [round(100 * 65535 / 1000)]. *)
Lemma get_raw_relhum_100_is_not_6553 :
  _get_raw_relhum 100 = Ok 6535 /\
  _get_raw_relhum 100 <> Ok 6553 /\
  _get_raw_relhum 100 <> Ok (spec_raw_humidity 100).
Proof.
  repeat split; vm_compute; congruence.
Qed.

(** C5, as the code has it: the temperature transform raises the ValueError
    on the range unless [-45 <= t <= 130]; for a [t] in range it returns
    [round(374.4857142857 * (45 + t))], the binary64 product rounded to the
    nearest integer, which lies within 1/2 of the exact product; it returns
    26214 for 25, and raises for -46. *)
Theorem get_raw_temp_spec :
  forall t : Z,
    (t < -45 \/ 130 < t ->
     _get_raw_temp t = Raise (ValueError MsgOutOfRange)) /\
    (-45 <= t <= 130 ->
     exists raw,
       _get_raw_temp t = Ok raw /\
       py_round (PrimFloat.mul 374.4857142857%float (float_of_int (45 + t)))
       = Ok raw /\
       Z.abs (10000000000 * raw - 3744857142857 * (45 + t)) <= 5000000000) /\
    _get_raw_temp 25 = Ok 26214 /\
    _get_raw_temp (-46) = Raise (ValueError MsgOutOfRange).
Proof.
  intros t.
  split; [| split; [| repeat split; vm_compute; reflexivity]].
  - apply _get_raw_temp_rejects.
  - intros Hin.
    assert (Hall : all_from temp_in_range_ok (-45) 176 = true)
      by (vm_compute; reflexivity).
    assert (Ht : temp_in_range_ok t = true)
      by (apply (all_from_spec _ _ _ Hall); lia).
    unfold temp_in_range_ok in Ht.
    destruct (_get_raw_temp t) as [raw |]; [| discriminate].
    destruct (py_round _) as [r |]; [| discriminate].
    apply andb_true_iff in Ht as [Heq Hnear].
    apply Z.eqb_eq in Heq. apply Z.leb_le in Hnear. subst r.
    exists raw. auto.
Qed.

Lemma get_raw_temp_spec_witness :
  -45 <= 0 <= 130 /\
  exists raw,
    _get_raw_temp 0 = Ok raw /\
    py_round (PrimFloat.mul 374.4857142857%float (float_of_int (45 + 0)))
    = Ok raw /\
    Z.abs (10000000000 * raw - 3744857142857 * (45 + 0)) <= 5000000000.
Proof.
  assert (H : -45 <= 0 <= 130) by lia.
  split; [exact H |].
  exact (proj1 (proj2 (get_raw_temp_spec 0)) H).
Defined.

(** C5, as the claim states it, fails at [t = 25]: the code returns 26214,
    not 26240. *)
Lemma get_raw_temp_25_is_not_26240 :
  _get_raw_temp 25 = Ok 26214 /\ _get_raw_temp 25 <> Ok 26240.
Proof.
  split; vm_compute; congruence.
Qed.

(** ** Bytes, checksums and the monad *)

Arguments _calc_crc : simpl never.

Lemma land_255_range (x : Z) : 0 <= Z.land 255 x < 256.
Proof.
  rewrite Z.land_comm. change 255 with (Z.ones 8).
  rewrite Z.land_ones by lia. apply Z.mod_pos_bound. reflexivity.
Qed.

Lemma crc8_shift_range (polynomial crc : Z) :
  0 <= crc8_shift polynomial crc < 256.
Proof.
  unfold crc8_shift. destruct (Z.testbit crc 7); apply land_255_range.
Qed.

Lemma crc8_byte_range (polynomial crc item : Z) :
  0 <= crc8_byte polynomial crc item < 256.
Proof.
  unfold crc8_byte. cbn [Nat.iter]. apply crc8_shift_range.
Qed.

Lemma crc8_range (sequence : list Z) (polynomial init_value : Z) :
  0 <= crc8 sequence polynomial init_value < 256.
Proof.
  unfold crc8.
  assert (Hinit : 0 <= Z.land init_value 255 < 256)
    by (rewrite Z.land_comm; apply land_255_range).
  revert Hinit. generalize (Z.land init_value 255) as crc.
  induction sequence as [| item sequence IH]; intros crc Hcrc; cbn [fold_left].
  - exact Hcrc.
  - apply IH. apply crc8_byte_range.
Qed.

Lemma _calc_crc_range (sequence : list Z) : 0 <= _calc_crc sequence < 256.
Proof. apply crc8_range. Qed.

Lemma to_bytes_2_big (x : Z) :
  0 <= x < 65536 -> to_bytes (Some x) 2 "big" = Ok [hi x; lo x].
Proof.
  intros Hx. unfold to_bytes.
  destruct (Z.ltb_spec x 0); [lia |].
  change (2 ^ (8 * Z.of_nat 2)) with 65536.
  destruct (Z.leb_spec 65536 x); [lia |].
  cbn [String.eqb Ascii.eqb Bool.eqb le_bytes rev app].
  unfold hi, lo. do 2 f_equal.
  change 255 with (Z.ones 8). rewrite Z.land_ones by lia.
  rewrite Z.shiftr_div_pow2 by lia.
  apply Z.mod_small. change (2 ^ 8) with 256.
  split; [apply Z.div_pos; lia | apply Z.div_lt_upper_bound; lia].
Qed.

(** Laws of [M], used to run a method step by step. *)
Section MonadLaws.
Context {A B C : Type}.

Lemma bind_assoc (m : M A) (k1 : A -> M B) (k2 : B -> M C) (w : world) :
  bind (bind m k1) k2 w = bind m (fun a => bind (k1 a) k2) w.
Proof. unfold bind. destruct (m w) as [[a | e] w']; reflexivity. Qed.

Lemma bind_ret (a : A) (k : A -> M B) (w : world) :
  bind (ret a) k w = k a w.
Proof. reflexivity. Qed.

Lemma bind_raise (e : exn) (k : A -> M B) (w : world) :
  bind (raise e) k w = (Raise e, w).
Proof. reflexivity. Qed.

Lemma bind_lift_ok (a : A) (k : A -> M B) (w : world) :
  bind (lift (Ok a)) k w = k a w.
Proof. reflexivity. Qed.

Lemma bind_lift_raise (e : exn) (k : A -> M B) (w : world) :
  bind (lift (Raise e)) k w = (Raise e, w).
Proof. reflexivity. Qed.

Lemma bind_get_self (k : SGP4X -> M B) (w : world) :
  bind get_self k w = k (self w) w.
Proof. reflexivity. Qed.

Lemma bind_modify_self (f : SGP4X -> SGP4X) (k : unit -> M B) (w : world) :
  bind (modify_self f) k w = k tt (mk_world (f (self w)) (adapter w)).
Proof. reflexivity. Qed.

Lemma bind_emit (e : event) (k : unit -> M B) (w : world) :
  bind (emit e) k w
  = k tt (mk_world (self w)
            (mk_BusAdapter (trace (adapter w) ++ [e]) (pending (adapter w)))).
Proof. reflexivity. Qed.
End MonadLaws.

(** One pass of the monad laws over the goal, then the record
    projections. *)
Ltac mstep :=
  repeat (progress
            (rewrite ?bind_assoc, ?bind_ret, ?bind_raise, ?bind_lift_ok,
               ?bind_lift_raise, ?bind_get_self, ?bind_modify_self,
               ?bind_emit;
             cbv beta delta [set_cmd_buf set_last_cmd_code sent];
             cbn [self adapter trace pending fst snd
                  _connector _check_crc _sensor_id _last_cmd_code _byte_order
                  _buf_3 _buf_6 _cmd_buf _buf_9 load store])).

Arguments hi : simpl never.
Arguments lo : simpl never.

(** List and index arithmetic on the buffers. *)
Ltac lstep := simpl.

Lemma setitem_byte (buf : list Z) (i v : Z) :
  0 <= v < 256 ->
  setitem buf i v =
  match set_nth buf (Z.to_nat i) v with
  | Some buf' => Ok buf'
  | None => Raise IndexError
  end.
Proof.
  intros Hv. unfold setitem.
  destruct (Z.ltb_spec v 0); [lia |].
  destruct (Z.ltb_spec 255 v); [lia |].
  reflexivity.
Qed.

Lemma _send_command_with_params (w : world) (cmd_code rh t : Z) :
  constructed (self w) ->
  0 <= cmd_code < 65536 -> 0 < rh < 65536 -> 0 < t < 65536 ->
  _send_command cmd_code (Some rh) (Some t) w =
  (Ok tt, sent cmd_code (frame_with_params cmd_code rh t)
            (frame_with_params cmd_code rh t) w).
Proof.
  intros Hc Hcode Hrh Ht.
  destruct w as [s ad]. cbn [self] in Hc.
  destruct Hc as [Hbo _ _ _ _ Hbuf _].
  destruct s as [conn crc sid last bo b3 b6 cmd b9].
  cbn [_byte_order _cmd_buf] in Hbo, Hbuf. subst bo.
  do 9 (destruct cmd as [| ? cmd]; try discriminate Hbuf).
  unfold _send_command, write. mstep.
  cbn [forallb truthy].
  destruct (Z.eqb_spec rh 0); [lia |].
  destruct (Z.eqb_spec t 0); [lia |].
  cbn [negb andb].
  rewrite !to_bytes_2_big by lia.
  mstep.
  lstep.
  rewrite (setitem_byte _ 4) by apply _calc_crc_range.
  lstep. mstep.
  rewrite (setitem_byte _ 7) by apply _calc_crc_range.
  lstep. mstep.
  reflexivity.
Qed.

Lemma bind_ok {A B : Type} (m : M A) (k : A -> M B) (w w' : world) (a : A) :
  m w = (Ok a, w') -> bind m k w = k a w'.
Proof. intros H. unfold bind. rewrite H. reflexivity. Qed.

Lemma bind_fail {A B : Type} (m : M A) (k : A -> M B) (w w' : world)
  (e : exn) :
  m w = (Raise e, w') -> bind m k w = (Raise e, w').
Proof. intros H. unfold bind. rewrite H. reflexivity. Qed.

Lemma _send_command_bare (w : world) (cmd_code : Z)
  (raw_rel_hum raw_temp : option Z) :
  constructed (self w) ->
  0 <= cmd_code < 65536 ->
  truthy raw_rel_hum = false \/ truthy raw_temp = false ->
  _send_command cmd_code raw_rel_hum raw_temp w =
  (Ok tt, sent cmd_code [hi cmd_code; lo cmd_code] (_cmd_buf (self w)) w).
Proof.
  intros Hc Hcode Hfalsy.
  destruct w as [s ad]. cbn [self] in Hc.
  destruct Hc as [Hbo _ _ _ _ _ _].
  destruct s as [conn crc sid last bo b3 b6 cmd b9].
  cbn [_byte_order] in Hbo. subst bo.
  unfold _send_command, write. mstep.
  assert (Hall : forallb truthy [raw_rel_hum; raw_temp] = false).
  { cbn [forallb]. destruct Hfalsy as [H | H]; rewrite H;
      [reflexivity | destruct (truthy raw_rel_hum); reflexivity]. }
  rewrite Hall, to_bytes_2_big by lia.
  mstep. reflexivity.
Qed.

Lemma sent_constructed (cmd_code : Z) (frame cmd_buf : list Z) (w : world) :
  constructed (self w) ->
  List.length cmd_buf = 8%nat ->
  constructed (self (sent cmd_code frame cmd_buf w)).
Proof.
  intros [Hbo Hconn Hsid H3 H6 _ H9] Hlen.
  destruct w as [s ad]. destruct s. constructor; assumption.
Qed.

(** ** Construction *)

Lemma initial_constructed (sensor_id : Z) (check_crc : bool) :
  sensor_id = 0 \/ sensor_id = 1 -> constructed (initial sensor_id check_crc).
Proof. intros H. constructor; try reflexivity. exact H. Qed.

(** C8: construction never touches the adapter; it raises the ValueError on
    the address when the address is not 0x59, and the one on the sensor id
    when the address is 0x59 and the id is neither 0 nor 1; with address
    0x59 and an id of 0 or 1 it yields the session, with its buffers
    allocated, no command issued yet, and big-endian byte order. *)
Theorem init_checks_address_and_sensor_id :
  forall (address sensor_id : Z) (check_crc : bool) (adapter : BusAdapter),
    snd (__init__ address sensor_id check_crc adapter) = adapter /\
    (address <> 0x59 ->
     fst (__init__ address sensor_id check_crc adapter)
     = Raise (ValueError (MsgBadAddress address))) /\
    (address = 0x59 -> sensor_id <> 0 /\ sensor_id <> 1 ->
     fst (__init__ address sensor_id check_crc adapter)
     = Raise (ValueError (MsgBadSensorId sensor_id))) /\
    (address = 0x59 -> sensor_id = 0 \/ sensor_id = 1 ->
     constructed (initial sensor_id check_crc)) /\
    (address = 0x59 -> sensor_id = 0 \/ sensor_id = 1 ->
     fst (__init__ address sensor_id check_crc adapter)
     = Ok (initial sensor_id check_crc)).
Proof.
  intros address sensor_id check_crc adapter.
  split; [reflexivity |].
  unfold __init__, check_value, contains; cbn [fst start stop].
  split; [| split; [| split]].
  - intros Ha.
    destruct (Z.leb_spec 0x59 address); destruct (Z.ltb_spec address 0x5A);
      cbn [andb bindR]; try reflexivity; lia.
  - intros -> [Hs0 Hs1]. cbn [Z.leb Z.ltb Z.compare Pos.compare
                               Pos.compare_cont andb bindR].
    destruct (Z.leb_spec 0 sensor_id); destruct (Z.ltb_spec sensor_id 2);
      cbn [andb bindR]; try reflexivity; lia.
  - intros _ Hs. apply initial_constructed, Hs.
  - intros -> [-> | ->]; reflexivity.
Qed.

Lemma init_checks_address_and_sensor_id_witness :
  0x5A <> 0x59 /\
  fst (__init__ 0x5A 0 true (mk_BusAdapter [] []))
  = Raise (ValueError (MsgBadAddress 0x5A)).
Proof.
  assert (H : 0x5A <> 0x59) by discriminate.
  split; [exact H |].
  exact (proj1 (proj2 (init_checks_address_and_sensor_id
                         0x5A 0 true (mk_BusAdapter [] []))) H).
Defined.

(** ** The frame encoder *)

(** C10: when the raw humidity or the raw temperature handed to
    [_send_command] is 0, [all((raw_rel_hum, raw_temp))] is false and the
    frame written is the bare two-byte command code; the compensation
    values are not sent. *)
Theorem send_command_zero_value_sends_bare_frame :
  forall (w : world) (cmd_code : Z) (raw_rel_hum raw_temp : option Z),
    constructed (self w) ->
    0 <= cmd_code < 65536 ->
    raw_rel_hum = Some 0 \/ raw_temp = Some 0 ->
    forallb truthy [raw_rel_hum; raw_temp] = false /\
    _send_command cmd_code raw_rel_hum raw_temp w =
    (Ok tt, sent cmd_code [hi cmd_code; lo cmd_code] (_cmd_buf (self w)) w).
Proof.
  intros w cmd_code raw_rel_hum raw_temp Hc Hcode Hzero.
  assert (Hfalsy : truthy raw_rel_hum = false \/ truthy raw_temp = false)
    by (destruct Hzero as [-> | ->]; [left | right]; reflexivity).
  split.
  - cbn [forallb]. destruct Hfalsy as [H | H]; rewrite H;
      [reflexivity | destruct (truthy raw_rel_hum); reflexivity].
  - apply _send_command_bare; assumption.
Qed.

Lemma send_command_zero_value_sends_bare_frame_witness :
  _send_command _cmd_measure_raw_signal (Some 0) (Some 26214)
    (fresh_world 0 true []) =
  (Ok tt, sent _cmd_measure_raw_signal [0x26; 0x0F] (repeat 0 8)
            (fresh_world 0 true [])).
Proof.
  apply (send_command_zero_value_sends_bare_frame (fresh_world 0 true [])
           _cmd_measure_raw_signal (Some 0) (Some 26214)).
  - apply initial_constructed. left; reflexivity.
  - unfold _cmd_measure_raw_signal; lia.
  - left; reflexivity.
Defined.

(** C2 at raw humidity 0, a value the caller did supply: the frame that goes
    out is the two command bytes, not the eight bytes of a command with
    parameters; with a raw humidity of 1 the eight bytes go out. *)
Lemma send_command_drops_supplied_zero :
  trace (adapter (snd (_send_command _cmd_measure_raw_signal
                         (Some 0) (Some 26214) (fresh_world 0 true []))))
  = [BusWrite [0x26; 0x0F]] /\
  trace (adapter (snd (_send_command _cmd_measure_raw_signal
                         (Some 1) (Some 26214) (fresh_world 0 true []))))
  = [BusWrite [0x26; 0x0F; 0x00; 0x01; 0xB0; 0x66; 0x66; 0x93]].
Proof. split; vm_compute; reflexivity. Qed.

(** ** Round trip *)

Lemma _check_answer_groups (groups : list (Z * Z)) :
  (List.length groups <= 3)%nat ->
  _check_answer (flat_map encode_group groups)
    (3 * Z.of_nat (List.length groups)) = Ok true.
Proof.
  intros Hlen.
  assert (Hin : In (3 * Z.of_nat (List.length groups)) [0; 3; 6; 9]).
  { destruct groups as [| g0 [| g1 [| g2 [| g3 groups]]]];
      cbn in Hlen |- *; try lia; tauto. }
  rewrite (_check_answer_unfold _ _ Hin).
  rewrite (proj2 (check_places_pass _ _)); [reflexivity |].
  intros i Hi. apply in_seq in Hi.
  replace (3 * Z.of_nat (List.length groups) / 3)
    with (Z.of_nat (List.length groups)) in Hi
    by (rewrite Z.mul_comm, Z.div_mul; lia).
  rewrite Nat2Z.id in Hi.
  destruct groups as [| [h0 l0] [| [h1 l1] [| [h2 l2] [| g3 groups]]]];
    cbn [List.length] in Hlen, Hi; try lia;
    destruct i as [| [| [| i]]]; try lia; reflexivity.
Qed.

(** C6: answers built from groups of two data bytes followed by the
    checksum the encoder computes for them pass the validation; so do the
    two parameter groups of a frame [_send_command] has written. *)
Theorem encoded_groups_pass_validation :
  forall groups : list (Z * Z),
    (List.length groups <= 3)%nat ->
    _check_answer (flat_map encode_group groups)
      (3 * Z.of_nat (List.length groups)) = Ok true /\
    (forall (w : world) (cmd_code rh t : Z),
        constructed (self w) ->
        0 <= cmd_code < 65536 -> 0 < rh < 65536 -> 0 < t < 65536 ->
        exists (w' : world) (frame : list Z),
          _send_command cmd_code (Some rh) (Some t) w = (Ok tt, w') /\
          trace (adapter w') = trace (adapter w) ++ [BusWrite frame] /\
          skipn 2 frame
          = flat_map encode_group [(hi rh, lo rh); (hi t, lo t)] /\
          _check_answer (skipn 2 frame) 6 = Ok true).
Proof.
  intros groups Hlen. split.
  - apply _check_answer_groups, Hlen.
  - intros w cmd_code rh t Hc Hcode Hrh Ht.
    exists (sent cmd_code (frame_with_params cmd_code rh t)
              (frame_with_params cmd_code rh t) w).
    exists (frame_with_params cmd_code rh t).
    split; [apply _send_command_with_params; assumption |].
    split; [reflexivity |].
    split; [reflexivity |].
    apply (_check_answer_groups [(hi rh, lo rh); (hi t, lo t)]).
    cbn; lia.
Qed.

Lemma encoded_groups_pass_validation_witness :
  _check_answer (flat_map encode_group [(0xBE, 0xEF); (0x12, 0x34)]) 6
  = Ok true.
Proof.
  apply (encoded_groups_pass_validation [(0xBE, 0xEF); (0x12, 0x34)]).
  cbn; lia.
Defined.

(** ** Commands with compensation values *)

Lemma raw_relhum_bounds (rh : Z) :
  0 <= rh <= 100 ->
  exists raw,
    _get_raw_relhum rh = Ok raw /\ 0 <= raw < 65536 /\ (raw = 0 <-> rh = 0).
Proof.
  intros Hin.
  assert (Hall : all_from relhum_raw_ok 0 101 = true)
    by (vm_compute; reflexivity).
  assert (Hrh : relhum_raw_ok rh = true)
    by (apply (all_from_spec _ _ _ Hall); lia).
  unfold relhum_raw_ok in Hrh.
  destruct (_get_raw_relhum rh) as [raw |]; [| discriminate].
  apply andb_true_iff in Hrh as [Hrange Hzero].
  apply andb_true_iff in Hrange as [Hlo Hhi].
  apply Z.leb_le in Hlo. apply Z.ltb_lt in Hhi. apply eqb_prop in Hzero.
  exists raw. repeat split; try assumption.
  - intros ->. apply Z.eqb_eq. rewrite <- Hzero. reflexivity.
  - intros ->. apply Z.eqb_eq. rewrite Hzero. reflexivity.
Qed.

Lemma raw_temp_bounds (t : Z) :
  -45 <= t <= 130 ->
  exists raw,
    _get_raw_temp t = Ok raw /\ 0 <= raw < 65536 /\ (raw = 0 <-> t = -45).
Proof.
  intros Hin.
  assert (Hall : all_from temp_raw_ok (-45) 176 = true)
    by (vm_compute; reflexivity).
  assert (Ht : temp_raw_ok t = true)
    by (apply (all_from_spec _ _ _ Hall); lia).
  unfold temp_raw_ok in Ht.
  destruct (_get_raw_temp t) as [raw |]; [| discriminate].
  apply andb_true_iff in Ht as [Hrange Hzero].
  apply andb_true_iff in Hrange as [Hlo Hhi].
  apply Z.leb_le in Hlo. apply Z.ltb_lt in Hhi. apply eqb_prop in Hzero.
  exists raw. repeat split; try assumption.
  - intros ->. apply Z.eqb_eq. rewrite <- Hzero. reflexivity.
  - intros ->. apply Z.eqb_eq. rewrite Hzero. reflexivity.
Qed.

Lemma _check_rh_temp_both (rh t : Z) :
  0 <= rh <= 100 -> -45 <= t <= 130 ->
  _check_rh_temp (Some rh) (Some t) = Ok tt.
Proof.
  intros Hrh Ht.
  unfold _check_rh_temp, truthy, check_value, contains; cbn [start stop].
  destruct (Z.eqb_spec t 0) as [Ht0 | Hnt]; cbn [negb].
  - destruct (Z.eqb_spec rh 0) as [Hr0 | Hnr]; cbn [negb start stop];
      [reflexivity |].
    destruct (Z.leb_spec 0 rh); destruct (Z.ltb_spec rh 101);
      cbn [andb bindR]; try reflexivity; lia.
  - destruct (negb (rh =? 0)); cbn [start stop];
      destruct (Z.leb_spec (-45) t); destruct (Z.ltb_spec t 131);
      cbn [andb bindR]; try reflexivity; lia.
Qed.

(** Whatever the raw values, a command goes out: as the frame with
    parameters when both are nonzero, as the bare code otherwise. *)
Lemma _send_command_any (w : world) (cmd_code rh t : Z) :
  constructed (self w) ->
  0 <= cmd_code < 65536 -> 0 <= rh < 65536 -> 0 <= t < 65536 ->
  exists frame cmd_buf : list Z,
    _send_command cmd_code (Some rh) (Some t) w
    = (Ok tt, sent cmd_code frame cmd_buf w) /\
    List.length cmd_buf = 8%nat /\
    (rh <> 0 -> t <> 0 ->
     frame = frame_with_params cmd_code rh t /\ cmd_buf = frame) /\
    (rh = 0 \/ t = 0 -> frame = [hi cmd_code; lo cmd_code]).
Proof.
  intros Hc Hcode Hrh Ht.
  destruct (Z.eq_dec rh 0) as [Hr0 | Hr0];
    [| destruct (Z.eq_dec t 0) as [Ht0 | Ht0]].
  - exists [hi cmd_code; lo cmd_code], (_cmd_buf (self w)).
    split; [| split; [apply Hc | split; [intros; exfalso; lia | reflexivity]]].
    apply _send_command_bare; try assumption.
    left. subst rh. reflexivity.
  - exists [hi cmd_code; lo cmd_code], (_cmd_buf (self w)).
    split; [| split; [apply Hc | split; [intros; exfalso; lia | reflexivity]]].
    apply _send_command_bare; try assumption.
    right. subst t. reflexivity.
  - exists (frame_with_params cmd_code rh t), (frame_with_params cmd_code rh t).
    split; [| split; [reflexivity | split; [auto | intros H; exfalso; lia]]].
    apply _send_command_with_params; try assumption; lia.
Qed.

(** The first half of [_send_command_and_read_answer] for a command with
    parameters: checks, transforms, and the frame on the bus. *)
Lemma _send_command_and_read_answer_sends (w : world) (cmd_code : Z)
  (unpack_format : string) (rh t : Z) :
  constructed (self w) ->
  0 <= cmd_code < 65536 -> 0 <= rh <= 100 -> -45 <= t <= 130 ->
  exists (raw_rh raw_temp : Z) (frame cmd_buf : list Z),
    _get_raw_relhum rh = Ok raw_rh /\
    _get_raw_temp t = Ok raw_temp /\
    List.length cmd_buf = 8%nat /\
    (1 <= rh -> -44 <= t ->
     frame = frame_with_params cmd_code raw_rh raw_temp) /\
    (rh = 0 \/ t = -45 -> frame = [hi cmd_code; lo cmd_code]) /\
    _send_command_and_read_answer cmd_code unpack_format true
      (Some rh) (Some t) w =
    (sensor_id <- get_sensor_id ;;
     _ap <- lift (_get_answer_params (Some cmd_code) sensor_id) ;;
     sleep_ms (wait_time _ap) ;;
     _buf <- _read_answer ;;
     s <- get_self ;;
     lift (unpack (_connector s) unpack_format _buf))%M
      (sent cmd_code frame cmd_buf w).
Proof.
  intros Hc Hcode Hrh Ht.
  destruct (raw_relhum_bounds rh Hrh) as (raw_rh & Hraw_rh & Hb_rh & Hz_rh).
  destruct (raw_temp_bounds t Ht) as (raw_temp & Hraw_t & Hb_t & Hz_t).
  destruct (_send_command_any w cmd_code raw_rh raw_temp Hc Hcode Hb_rh Hb_t)
    as (frame & cmd_buf & Hsend & Hlen & Hfull & Hbare).
  exists raw_rh, raw_temp, frame, cmd_buf.
  repeat (split; [first [assumption | idtac] |]).
  - intros H1 H2. apply Hfull; lia.
  - intros H. apply Hbare. lia.
  - unfold _send_command_and_read_answer. cbv iota.
    rewrite bind_assoc, (_check_rh_temp_both rh t Hrh Ht), bind_lift_ok.
    rewrite bind_assoc, Hraw_t, bind_lift_ok.
    rewrite bind_assoc, Hraw_rh, bind_lift_ok.
    rewrite (bind_ok _ _ _ _ _ Hsend). reflexivity.
Qed.

(** C9: on a session for the SGP40 (sensor id 0), [execute_conditioning]
    with compensation values in range raises the ValueError of the metadata
    lookup, and it does so after the command frame went out on the bus and
    the command was recorded as the last one issued; for [rh >= 1] and
    [t >= -44] that frame is the full 8-byte frame with both parameters. *)
Theorem conditioning_on_sgp40_raises_after_the_write :
  forall (w : world) (rh t : Z),
    constructed (self w) ->
    _sensor_id (self w) = 0 ->
    0 <= rh <= 100 -> -45 <= t <= 130 ->
    exists (raw_rh raw_temp : Z) (frame cmd_buf : list Z) (w' : world),
      _get_raw_relhum rh = Ok raw_rh /\
      _get_raw_temp t = Ok raw_temp /\
      (1 <= rh -> -44 <= t ->
       frame = frame_with_params _cmd_execute_conditioning raw_rh raw_temp /\
       List.length frame = 8%nat) /\
      execute_conditioning rh t w =
      (Raise (ValueError (MsgBadCommand (Some _cmd_execute_conditioning) 0)),
       w') /\
      w' = sent _cmd_execute_conditioning frame cmd_buf w /\
      trace (adapter w') = trace (adapter w) ++ [BusWrite frame] /\
      pending (adapter w') = pending (adapter w) /\
      _last_cmd_code (self w') = Some _cmd_execute_conditioning.
Proof.
  intros w rh t Hc Hsid Hrh Ht.
  assert (Hcode : 0 <= _cmd_execute_conditioning < 65536)
    by (unfold _cmd_execute_conditioning; lia).
  destruct (_send_command_and_read_answer_sends w _cmd_execute_conditioning
              "HB" rh t Hc Hcode Hrh Ht)
    as (raw_rh & raw_temp & frame & cmd_buf & Hraw_rh & Hraw_t & Hlen
        & Hfull & Hbare & Hrun).
  exists raw_rh, raw_temp, frame, cmd_buf,
    (sent _cmd_execute_conditioning frame cmd_buf w).
  split; [exact Hraw_rh |]. split; [exact Hraw_t |].
  split; [intros H1 H2; rewrite (Hfull H1 H2); split; reflexivity |].
  split; [| repeat split].
  unfold execute_conditioning.
  apply bind_fail. rewrite Hrun.
  unfold get_sensor_id. mstep. rewrite Hsid.
  reflexivity.
Qed.

Lemma conditioning_on_sgp40_raises_after_the_write_witness :
  exists (raw_rh raw_temp : Z) (frame cmd_buf : list Z) (w' : world),
    _get_raw_relhum 50 = Ok raw_rh /\
    _get_raw_temp 25 = Ok raw_temp /\
    (1 <= 50 -> -44 <= 25 ->
     frame = frame_with_params _cmd_execute_conditioning raw_rh raw_temp /\
     List.length frame = 8%nat) /\
    execute_conditioning 50 25 (fresh_world 0 true []) =
    (Raise (ValueError (MsgBadCommand (Some _cmd_execute_conditioning) 0)),
     w') /\
    w' = sent _cmd_execute_conditioning frame cmd_buf (fresh_world 0 true []) /\
    trace (adapter w')
    = trace (adapter (fresh_world 0 true [])) ++ [BusWrite frame] /\
    pending (adapter w') = pending (adapter (fresh_world 0 true [])) /\
    _last_cmd_code (self w') = Some _cmd_execute_conditioning.
Proof.
  apply (conditioning_on_sgp40_raises_after_the_write
           (fresh_world 0 true []) 50 25).
  - apply initial_constructed. left; reflexivity.
  - reflexivity.
  - lia.
  - lia.
Defined.

(** ** Raw signal measurement *)

Lemma bind_read_to_buf {B : Type} (r : buf_ref) (k : unit -> M B)
  (s : SGP4X) (tr : list event) (answer : list Z) (rest : list (list Z)) :
  List.length answer = List.length (load r s) ->
  bind (read_to_buf r) k (mk_world s (mk_BusAdapter tr (answer :: rest)))
  = k tt (mk_world (store r answer s)
            (mk_BusAdapter (tr ++ [BusRead answer]) rest)).
Proof.
  intros Hlen. unfold bind, read_to_buf. cbn [pending adapter self trace].
  rewrite Hlen, Nat.eqb_refl. reflexivity.
Qed.

(** Running a raw signal command up to the read of the answer. *)
Ltac run_to_read sid ap n :=
  unfold get_sensor_id, sleep_ms; mstep;
  change (_get_answer_params (Some _cmd_measure_raw_signal) sid) with (Ok ap);
  mstep;
  unfold _read_answer, get_last_cmd_code, get_sensor_id; mstep;
  change (_get_answer_params (Some _cmd_measure_raw_signal) sid) with (Ok ap);
  mstep; cbn [length];
  change (0 =? n) with false; cbv iota;
  unfold _get_buf_by_answ_length;
  change (_check_answer_length n) with (Ok tt);
  change (0 =? n) with false;
  first [ change (3 =? n) with true
        | change (3 =? n) with false; change (6 =? n) with true ];
  cbv iota; mstep.

Lemma raw_signal_answer_sgp40 (w : world) (rh t a0 a1 a2 : Z)
  (rest : list (list Z)) :
  constructed (self w) ->
  _sensor_id (self w) = 0 ->
  0 <= rh <= 100 -> -45 <= t <= 130 ->
  pending (adapter w) = [a0; a1; a2] :: rest ->
  (_check_crc (self w) = true -> _check_answer [a0; a1; a2] 3 = Ok true) ->
  exists w' : world,
    _send_command_and_read_answer _cmd_measure_raw_signal "HB" true
      (Some rh) (Some t) w = (Ok [256 * a0 + a1; a2], w') /\
    _sensor_id (self w') = 0 /\
    pending (adapter w') = rest.
Proof.
  intros Hc Hsid Hrh Ht Hpend Hcrc.
  assert (Hcode : 0 <= _cmd_measure_raw_signal < 65536)
    by (unfold _cmd_measure_raw_signal; lia).
  destruct (_send_command_and_read_answer_sends w _cmd_measure_raw_signal
              "HB" rh t Hc Hcode Hrh Ht)
    as (raw_rh & raw_temp & frame & cmd_buf & _ & _ & Hbuf & _ & _ & Hrun).
  rewrite Hrun. clear Hrun.
  destruct Hc as [Hbo Hconn _ H3 H6 Hcmd H9].
  destruct w as [s [tr pend]].
  destruct s as [[addr big] crc sid last bo b3 b6 cmd b9].
  cbn [self adapter pending _sensor_id _check_crc _byte_order _connector
       big_byte_order _buf_3 _buf_6 _cmd_buf _buf_9] in *.
  subst bo big pend sid.
  run_to_read 0 (mk_answer_params 3 30) 3.
  rewrite bind_read_to_buf by (cbn [load _buf_3 List.length]; congruence).
  mstep.
  destruct crc.
  - rewrite (Hcrc eq_refl). mstep.
    eexists. split; [reflexivity | split; reflexivity].
  - mstep. eexists. split; [reflexivity | split; reflexivity].
Qed.

Lemma raw_signal_answer_sgp41 (w : world) (rh t a0 a1 a2 a3 a4 a5 : Z)
  (rest : list (list Z)) :
  constructed (self w) ->
  _sensor_id (self w) = 1 ->
  0 <= rh <= 100 -> -45 <= t <= 130 ->
  pending (adapter w) = [a0; a1; a2; a3; a4; a5] :: rest ->
  (_check_crc (self w) = true ->
   _check_answer [a0; a1; a2; a3; a4; a5] 6 = Ok true) ->
  exists w' : world,
    _send_command_and_read_answer _cmd_measure_raw_signal "HBHB" true
      (Some rh) (Some t) w
    = (Ok [256 * a0 + a1; a2; 256 * a3 + a4; a5], w') /\
    _sensor_id (self w') = 1 /\
    pending (adapter w') = rest.
Proof.
  intros Hc Hsid Hrh Ht Hpend Hcrc.
  assert (Hcode : 0 <= _cmd_measure_raw_signal < 65536)
    by (unfold _cmd_measure_raw_signal; lia).
  destruct (_send_command_and_read_answer_sends w _cmd_measure_raw_signal
              "HBHB" rh t Hc Hcode Hrh Ht)
    as (raw_rh & raw_temp & frame & cmd_buf & _ & _ & Hbuf & _ & _ & Hrun).
  rewrite Hrun. clear Hrun.
  destruct Hc as [Hbo Hconn _ H3 H6 Hcmd H9].
  destruct w as [s [tr pend]].
  destruct s as [[addr big] crc sid last bo b3 b6 cmd b9].
  cbn [self adapter pending _sensor_id _check_crc _byte_order _connector
       big_byte_order _buf_3 _buf_6 _cmd_buf _buf_9] in *.
  subst bo big pend sid.
  run_to_read 1 (mk_answer_params 6 50) 6.
  rewrite bind_read_to_buf by (cbn [load _buf_6 List.length]; congruence).
  mstep.
  destruct crc.
  - rewrite (Hcrc eq_refl). mstep.
    eexists. split; [reflexivity | split; reflexivity].
  - mstep. eexists. split; [reflexivity | split; reflexivity].
Qed.

Lemma length_3_inv (l : list Z) :
  List.length l = 3%nat -> exists a0 a1 a2, l = [a0; a1; a2].
Proof.
  destruct l as [| a0 [| a1 [| a2 [| a3 l]]]]; try discriminate.
  intros _. eauto.
Qed.

Lemma length_6_inv (l : list Z) :
  List.length l = 6%nat ->
  exists a0 a1 a2 a3 a4 a5, l = [a0; a1; a2; a3; a4; a5].
Proof.
  destruct l as [| a0 [| a1 [| a2 [| a3 [| a4 [| a5 [| a6 l]]]]]]];
    try discriminate.
  intros _. exists a0, a1, a2, a3, a4, a5. reflexivity.
Qed.

(** A raw signal measurement whose answer has the variant's length and,
    when the CRC is checked, valid checksums, returns that answer's words. *)
Lemma measure_raw_signal_runs (w : world) (rh t : Z) (answer : list Z)
  (rest : list (list Z)) :
  constructed (self w) ->
  0 <= rh <= 100 -> -45 <= t <= 130 ->
  pending (adapter w) = answer :: rest ->
  List.length answer = (if _sensor_id (self w) =? 0 then 3%nat else 6%nat) ->
  (_check_crc (self w) = true ->
   _check_answer answer (if _sensor_id (self w) =? 0 then 3 else 6)
   = Ok true) ->
  exists w' : world,
    measure_raw_signal rh t w =
    (Ok (mk_measured_values (data_word answer 0)
           (if _sensor_id (self w) =? 0 then None
            else Some (data_word answer 1))),
     w') /\
    pending (adapter w') = rest.
Proof.
  intros Hc Hrh Ht Hpend Hlen Hcrc.
  unfold measure_raw_signal, get_sensor_id.
  rewrite bind_assoc, bind_get_self, bind_ret. cbv beta.
  destruct (constructed_sensor_id _ Hc) as [Hsid | Hsid];
    rewrite Hsid in *; cbn [Z.eqb] in Hlen, Hcrc; cbn [truthy Z.eqb negb].
  - destruct (length_3_inv _ Hlen) as (a0 & a1 & a2 & ->).
    destruct (raw_signal_answer_sgp40 w rh t a0 a1 a2 rest
                Hc Hsid Hrh Ht Hpend Hcrc) as (w' & Hrun & _ & Hrest).
    rewrite (bind_ok _ _ _ _ _ Hrun). mstep.
    exists w'. split; [reflexivity | exact Hrest].
  - destruct (length_6_inv _ Hlen) as (a0 & a1 & a2 & a3 & a4 & a5 & ->).
    destruct (raw_signal_answer_sgp41 w rh t a0 a1 a2 a3 a4 a5 rest
                Hc Hsid Hrh Ht Hpend Hcrc) as (w' & Hrun & _ & Hrest).
    rewrite (bind_ok _ _ _ _ _ Hrun). mstep.
    exists w'. split; [reflexivity | exact Hrest].
Qed.

Lemma bind_read_to_buf_fails {B : Type} (r : buf_ref) (k : unit -> M B)
  (w : world) :
  (forall answer rest,
      pending (adapter w) = answer :: rest ->
      List.length answer <> List.length (load r (self w))) ->
  bind (read_to_buf r) k w = (Raise OSError, w).
Proof.
  intros Hbad. unfold bind, read_to_buf.
  destruct (pending (adapter w)) as [| answer rest]; [reflexivity |].
  destruct (Nat.eqb_spec (List.length answer) (List.length (load r (self w))))
    as [Heq | Hne]; [| reflexivity].
  exfalso. exact (Hbad answer rest eq_refl Heq).
Qed.

Lemma _check_answer_true (answer : list Z) (answ_length : Z) (b : bool) :
  _check_answer answer answ_length = Ok b -> b = true.
Proof.
  unfold _check_answer.
  destruct (_check_answer_length answ_length); [| discriminate].
  destruct (_get_data_place answ_length true); [| discriminate].
  cbn [bindR]. destruct (check_places answer _); [| discriminate].
  cbn [bindR]. congruence.
Qed.

Lemma raw_signal_failure_sgp40 (w : world) (rh t : Z) :
  constructed (self w) ->
  _sensor_id (self w) = 0 ->
  0 <= rh <= 100 -> -45 <= t <= 130 ->
  (forall answer rest,
      pending (adapter w) = answer :: rest ->
      List.length answer <> 3%nat \/
      (_check_crc (self w) = true /\
       exists e, _check_answer answer 3 = Raise e)) ->
  exists (e : exn) (w' : world),
    _send_command_and_read_answer _cmd_measure_raw_signal "HB" true
      (Some rh) (Some t) w = (Raise e, w').
Proof.
  intros Hc Hsid Hrh Ht Hbad.
  assert (Hcode : 0 <= _cmd_measure_raw_signal < 65536)
    by (unfold _cmd_measure_raw_signal; lia).
  destruct (_send_command_and_read_answer_sends w _cmd_measure_raw_signal
              "HB" rh t Hc Hcode Hrh Ht)
    as (raw_rh & raw_temp & frame & cmd_buf & _ & _ & Hbuf & _ & _ & Hrun).
  rewrite Hrun. clear Hrun.
  destruct Hc as [Hbo Hconn _ H3 H6 Hcmd H9].
  destruct w as [s [tr pend]].
  destruct s as [[addr big] crc sid last bo b3 b6 cmd b9].
  cbn [self adapter pending _sensor_id _check_crc _byte_order _connector
       big_byte_order _buf_3 _buf_6 _cmd_buf _buf_9] in *.
  subst bo big sid.
  run_to_read 0 (mk_answer_params 3 30) 3.
  destruct pend as [| answer rest].
  - rewrite bind_read_to_buf_fails; [eauto |].
    cbn [pending adapter]. discriminate.
  - destruct (Hbad answer rest eq_refl) as [Hlen | [-> [e He]]].
    + rewrite bind_read_to_buf_fails; [eauto |].
      cbn [pending adapter self load _buf_3].
      intros ? ? [= <- <-]. congruence.
    + destruct (Nat.eq_dec (List.length answer) 3) as [Hlen | Hlen].
      * rewrite bind_read_to_buf
          by (cbn [load _buf_3 List.length]; congruence).
        mstep. rewrite He. mstep. eauto.
      * rewrite bind_read_to_buf_fails; [eauto |].
        cbn [pending adapter self load _buf_3].
        intros ? ? [= <- <-]. congruence.
Qed.

Lemma raw_signal_failure_sgp41 (w : world) (rh t : Z) :
  constructed (self w) ->
  _sensor_id (self w) = 1 ->
  0 <= rh <= 100 -> -45 <= t <= 130 ->
  (forall answer rest,
      pending (adapter w) = answer :: rest ->
      List.length answer <> 6%nat \/
      (_check_crc (self w) = true /\
       exists e, _check_answer answer 6 = Raise e)) ->
  exists (e : exn) (w' : world),
    _send_command_and_read_answer _cmd_measure_raw_signal "HBHB" true
      (Some rh) (Some t) w = (Raise e, w').
Proof.
  intros Hc Hsid Hrh Ht Hbad.
  assert (Hcode : 0 <= _cmd_measure_raw_signal < 65536)
    by (unfold _cmd_measure_raw_signal; lia).
  destruct (_send_command_and_read_answer_sends w _cmd_measure_raw_signal
              "HBHB" rh t Hc Hcode Hrh Ht)
    as (raw_rh & raw_temp & frame & cmd_buf & _ & _ & Hbuf & _ & _ & Hrun).
  rewrite Hrun. clear Hrun.
  destruct Hc as [Hbo Hconn _ H3 H6 Hcmd H9].
  destruct w as [s [tr pend]].
  destruct s as [[addr big] crc sid last bo b3 b6 cmd b9].
  cbn [self adapter pending _sensor_id _check_crc _byte_order _connector
       big_byte_order _buf_3 _buf_6 _cmd_buf _buf_9] in *.
  subst bo big sid.
  run_to_read 1 (mk_answer_params 6 50) 6.
  destruct pend as [| answer rest].
  - rewrite bind_read_to_buf_fails; [eauto |].
    cbn [pending adapter]. discriminate.
  - destruct (Hbad answer rest eq_refl) as [Hlen | [-> [e He]]].
    + rewrite bind_read_to_buf_fails; [eauto |].
      cbn [pending adapter self load _buf_6].
      intros ? ? [= <- <-]. congruence.
    + destruct (Nat.eq_dec (List.length answer) 6) as [Hlen | Hlen].
      * rewrite bind_read_to_buf
          by (cbn [load _buf_6 List.length]; congruence).
        mstep. rewrite He. mstep. eauto.
      * rewrite bind_read_to_buf_fails; [eauto |].
        cbn [pending adapter self load _buf_6].
        intros ? ? [= <- <-]. congruence.
Qed.

Lemma _check_rh_temp_result (rh t : option Z) :
  _check_rh_temp rh t = Ok tt \/
  _check_rh_temp rh t = Raise (ValueError MsgOutOfRange).
Proof.
  unfold _check_rh_temp, check_value.
  destruct (truthy rh), (truthy t), rh as [rh |], t as [t |];
    try (left; reflexivity);
    match goal with
    | |- context [contains ?c ?v] => destruct (contains c v)
    end; auto.
Qed.

(** Compensation values out of range are refused before anything is sent:
    the world is as before. *)
Lemma _send_command_and_read_answer_rejects (w : world) (cmd_code : Z)
  (unpack_format : string) (rh t : Z) :
  ~ (0 <= rh <= 100 /\ -45 <= t <= 130) ->
  _send_command_and_read_answer cmd_code unpack_format true
    (Some rh) (Some t) w = (Raise (ValueError MsgOutOfRange), w).
Proof.
  intros Hout. unfold _send_command_and_read_answer. cbv iota.
  rewrite bind_assoc.
  destruct (_check_rh_temp_result (Some rh) (Some t)) as [-> | ->];
    [| reflexivity].
  rewrite bind_lift_ok, bind_assoc.
  destruct (Z_le_dec (-45) t) as [Hlo | Hlo];
    [destruct (Z_le_dec t 130) as [Hhi | Hhi] |];
    try (rewrite _get_raw_temp_rejects by lia; reflexivity).
  destruct (raw_temp_bounds t (conj Hlo Hhi)) as (raw_temp & -> & _).
  rewrite bind_lift_ok, bind_assoc.
  rewrite _get_raw_relhum_rejects by lia. reflexivity.
Qed.

Lemma measure_raw_signal_rejects (w : world) (rh t : Z) :
  ~ (0 <= rh <= 100 /\ -45 <= t <= 130) ->
  measure_raw_signal rh t w = (Raise (ValueError MsgOutOfRange), w).
Proof.
  intros Hout. unfold measure_raw_signal, get_sensor_id.
  rewrite bind_assoc, bind_get_self, bind_ret. cbv beta.
  apply bind_fail. apply _send_command_and_read_answer_rejects, Hout.
Qed.

Lemma measure_raw_signal_fails (w : world) (rh t : Z) :
  constructed (self w) ->
  0 <= rh <= 100 -> -45 <= t <= 130 ->
  (forall answer rest,
      pending (adapter w) = answer :: rest ->
      List.length answer
      <> (if _sensor_id (self w) =? 0 then 3%nat else 6%nat) \/
      (_check_crc (self w) = true /\
       exists e,
         _check_answer answer (if _sensor_id (self w) =? 0 then 3 else 6)
         = Raise e)) ->
  exists (e : exn) (w' : world),
    measure_raw_signal rh t w = (Raise e, w').
Proof.
  intros Hc Hrh Ht Hbad.
  unfold measure_raw_signal, get_sensor_id.
  rewrite bind_assoc, bind_get_self, bind_ret. cbv beta.
  destruct (constructed_sensor_id _ Hc) as [Hsid | Hsid];
    rewrite Hsid in *; cbn [Z.eqb] in Hbad; cbn [truthy Z.eqb negb].
  - destruct (raw_signal_failure_sgp40 w rh t Hc Hsid Hrh Ht Hbad)
      as (e & w' & Hfail).
    exists e, w'. apply bind_fail, Hfail.
  - destruct (raw_signal_failure_sgp41 w rh t Hc Hsid Hrh Ht Hbad)
      as (e & w' & Hfail).
    exists e, w'. apply bind_fail, Hfail.
Qed.

(** C7: a raw signal measurement returns the first data word of the answer
    as VOC; NOx is None on the SGP40 (sensor id 0) and the second data word
    on the SGP41 (sensor id 1).  With compensation values in range, an
    answer of the variant's length and, when the CRC is checked, valid
    checksums, the call returns so; and whenever the call returns, it
    returns so for the answer the sensor gave to its read. *)
Theorem measure_raw_signal_fields :
  forall (w : world) (rh t : Z),
    constructed (self w) ->
    let variant0 := _sensor_id (self w) =? 0 in
    (forall (answer : list Z) (rest : list (list Z)),
        0 <= rh <= 100 -> -45 <= t <= 130 ->
        pending (adapter w) = answer :: rest ->
        List.length answer = (if variant0 then 3%nat else 6%nat) ->
        (_check_crc (self w) = true ->
         _check_answer answer (if variant0 then 3 else 6) = Ok true) ->
        exists w' : world,
          measure_raw_signal rh t w =
          (Ok (mk_measured_values (data_word answer 0)
                 (if variant0 then None else Some (data_word answer 1))),
           w') /\
          pending (adapter w') = rest) /\
    (forall (mv : measured_values_sgp4x) (w' : world),
        measure_raw_signal rh t w = (Ok mv, w') ->
        exists (answer : list Z) (rest : list (list Z)),
          pending (adapter w) = answer :: rest /\
          pending (adapter w') = rest /\
          VOC mv = data_word answer 0 /\
          NOx mv = (if variant0 then None else Some (data_word answer 1))).
Proof.
  intros w rh t Hc variant0. split.
  - intros answer rest Hrh Ht Hpend Hlen Hcrc.
    apply measure_raw_signal_runs; assumption.
  - intros mv w' Hrun.
    destruct (Z_le_dec 0 rh) as [Hr0 | Hr0];
      [destruct (Z_le_dec rh 100) as [Hr1 | Hr1];
       [destruct (Z_le_dec (-45) t) as [Ht0 | Ht0];
        [destruct (Z_le_dec t 130) as [Ht1 | Ht1] |] |] |].
    2-5: rewrite measure_raw_signal_rejects in Hrun by lia; discriminate.
    assert (Hrh : 0 <= rh <= 100) by lia.
    assert (Ht : -45 <= t <= 130) by lia.
    destruct (pending (adapter w)) as [| answer rest] eqn:Hpend.
    { destruct (measure_raw_signal_fails w rh t Hc Hrh Ht) as (e & w1 & Hf);
        [rewrite Hpend; discriminate | congruence]. }
    set (n := if variant0 then 3%nat else 6%nat).
    set (l := if variant0 then 3 else 6).
    assert (Hgood :
              (List.length answer = n /\
               (_check_crc (self w) = true ->
                _check_answer answer l = Ok true)) \/
              (List.length answer <> n \/
               (_check_crc (self w) = true /\
                exists e, _check_answer answer l = Raise e))).
    { destruct (Nat.eq_dec (List.length answer) n) as [Hlen | Hlen];
        [| right; left; exact Hlen].
      destruct (_check_crc (self w)); [| left; split; [exact Hlen | discriminate]].
      destruct (_check_answer answer l) as [b | e] eqn:Hchk.
      - left. split; [exact Hlen |]. intros _.
        f_equal. exact (_check_answer_true _ _ _ Hchk).
      - right. right. eauto. }
    destruct Hgood as [[Hlen Hcrc] | Hbad].
    + destruct (measure_raw_signal_runs w rh t answer rest
                  Hc Hrh Ht Hpend Hlen Hcrc) as (w1 & Hok & Hrest).
      rewrite Hok in Hrun. injection Hrun as <- <-.
      exists answer, rest. repeat split; assumption || reflexivity.
    + destruct (measure_raw_signal_fails w rh t Hc Hrh Ht) as (e & w1 & Hf);
        [| congruence].
      intros answer' rest' Heq. rewrite Hpend in Heq.
      injection Heq as <- <-. exact Hbad.
Qed.

Lemma measure_raw_signal_fields_witness :
  exists w' : world,
    measure_raw_signal 50 25
      (fresh_world 1 true [[0xBE; 0xEF; 0x92; 0x12; 0x34; 0x37]])
    = (Ok (mk_measured_values 0xBEEF (Some 0x1234)), w') /\
    pending (adapter w') = [].
Proof.
  assert (Hc : constructed
                 (self (fresh_world 1 true
                          [[0xBE; 0xEF; 0x92; 0x12; 0x34; 0x37]])))
    by (apply initial_constructed; right; reflexivity).
  destruct (measure_raw_signal_fields
              (fresh_world 1 true [[0xBE; 0xEF; 0x92; 0x12; 0x34; 0x37]])
              50 25 Hc) as [Hruns _].
  apply (Hruns [0xBE; 0xEF; 0x92; 0x12; 0x34; 0x37] []).
  - lia.
  - lia.
  - reflexivity.
  - reflexivity.
  - intros _. vm_compute. reflexivity.
Defined.

(** ** Runs of the driver on a fresh session *)

Example crc_of_known_words :
  _calc_crc [0xBE; 0xEF] = 0x92 /\
  _calc_crc [0x80; 0x00] = 0xA2 /\
  _calc_crc [0x66; 0x66] = 0x93.
Proof. repeat split; reflexivity. Qed.

Example heater_off_and_self_test :
  trace (adapter (snd (turn_heater_off (fresh_world 0 true []))))
  = [BusWrite [0x36; 0x15]] /\
  trace (adapter (snd (execute_self_test
                         (fresh_world 0 true [[0xD4; 0x00; 0xC6]]))))
  = [BusWrite [0x28; 0x0E]; SleepMs 320; BusRead [0xD4; 0x00; 0xC6]] /\
  fst (execute_self_test (fresh_world 0 true [[0xD4; 0x00; 0xC6]]))
  = Ok 0xD400.
Proof. repeat split; vm_compute; reflexivity. Qed.

Example measure_raw_signal_on_sgp40 :
  measure_raw_signal 50 25 (fresh_world 0 true [[0xBE; 0xEF; 0x92]]) =
  (Ok (mk_measured_values 0xBEEF None),
   mk_world
     (mk_SGP4X (mk_DeviceEx 0x59 true) true 0 (Some _cmd_measure_raw_signal)
        ("big", ">") [0xBE; 0xEF; 0x92] (repeat 0 6)
        [0x26; 0x0F; 0x0C; 0xC3; 0x21; 0x66; 0x66; 0x93] (repeat 0 9))
     (mk_BusAdapter
        [BusWrite [0x26; 0x0F; 0x0C; 0xC3; 0x21; 0x66; 0x66; 0x93];
         SleepMs 30; BusRead [0xBE; 0xEF; 0x92]]
        [])).
Proof. vm_compute. reflexivity. Qed.

Example corrupted_answer_is_refused :
  fst (measure_raw_signal 50 25 (fresh_world 0 true [[0xBE; 0xEF; 0x93]]))
  = Raise (ValueError (MsgBadCrc 0x92 0x93 3)).
Proof. vm_compute. reflexivity. Qed.

Example conditioning_on_sgp40_with_defaults :
  execute_conditioning 50 25 (fresh_world 0 true []) =
  (Raise (ValueError (MsgBadCommand (Some _cmd_execute_conditioning) 0)),
   mk_world
     (mk_SGP4X (mk_DeviceEx 0x59 true) true 0
        (Some _cmd_execute_conditioning) ("big", ">")
        (repeat 0 3) (repeat 0 6)
        [0x26; 0x12; 0x0C; 0xC3; 0x21; 0x66; 0x66; 0x93] (repeat 0 9))
     (mk_BusAdapter
        [BusWrite [0x26; 0x12; 0x0C; 0xC3; 0x21; 0x66; 0x66; 0x93]] [])).
Proof. vm_compute. reflexivity. Qed.

Example measure_with_zero_humidity_sends_no_compensation :
  trace (adapter (snd (measure_raw_signal 0 25
                         (fresh_world 0 true [[0xBE; 0xEF; 0x92]]))))
  = [BusWrite [0x26; 0x0F]; SleepMs 30; BusRead [0xBE; 0xEF; 0x92]].
Proof. vm_compute. reflexivity. Qed.

Example serial_number_is_read :
  get_id (fresh_world 1 false
            [[0x00; 0x00; 0x81; 0x02; 0x5F; 0x2C; 0xA1; 0xB2; 0x00]]) =
  (Ok (mk_serial_number 0x0000 0x025F 0xA1B2),
   mk_world
     (mk_SGP4X (mk_DeviceEx 0x59 true) false 1 (Some _cmd_get_serial_number)
        ("big", ">") (repeat 0 3) (repeat 0 6) (repeat 0 8)
        [0x00; 0x00; 0x81; 0x02; 0x5F; 0x2C; 0xA1; 0xB2; 0x00])
     (mk_BusAdapter
        [BusWrite [0x36; 0x82]; SleepMs 1;
         BusRead [0x00; 0x00; 0x81; 0x02; 0x5F; 0x2C; 0xA1; 0xB2; 0x00]]
        [])).
Proof. vm_compute. reflexivity. Qed.

(** * Further properties *)

(** ** What every run respects *)

Lemma extends_by_intro (P : event -> Prop) (w w' : world)
  (suffix : list event) :
  constructed (self w') ->
  _connector (self w') = _connector (self w) ->
  _check_crc (self w') = _check_crc (self w) ->
  _sensor_id (self w') = _sensor_id (self w) ->
  trace (adapter w') = trace (adapter w) ++ suffix ->
  Forall P suffix ->
  extends_by P w w'.
Proof.
  intros Hc Hconn Hcrc Hsid Ht Hp.
  unfold extends_by. eauto 10.
Qed.

Lemma extends_by_refl (P : event -> Prop) (w : world) :
  constructed (self w) -> extends_by P w w.
Proof.
  intros Hc. apply (extends_by_intro P w w []); auto.
  rewrite app_nil_r. reflexivity.
Qed.

Lemma extends_by_trans (P : event -> Prop) (w1 w2 w3 : world) :
  extends_by P w1 w2 -> extends_by P w2 w3 -> extends_by P w1 w3.
Proof.
  intros (_ & Hconn1 & Hcrc1 & Hsid1 & s1 & Ht1 & Hp1)
         (Hc & Hconn2 & Hcrc2 & Hsid2 & s2 & Ht2 & Hp2).
  apply (extends_by_intro P w1 w3 (s1 ++ s2)); try congruence.
  - rewrite Ht2, Ht1, app_assoc. reflexivity.
  - apply Forall_app. split; assumption.
Qed.


Section Respects.
Context {A B : Type} (P : event -> Prop).

Lemma respects_ret (a : A) : respects P (ret a).
Proof. intros w Hc. apply extends_by_refl, Hc. Qed.

Lemma respects_raise (e : exn) : respects P (@raise A e).
Proof. intros w Hc. apply extends_by_refl, Hc. Qed.

Lemma respects_lift (r : result A) : respects P (lift r).
Proof. intros w Hc. apply extends_by_refl, Hc. Qed.

Lemma respects_bind (m : M A) (k : A -> M B) :
  respects P m -> (forall a, respects P (k a)) -> respects P (bind m k).
Proof.
  intros Hm Hk w Hc. specialize (Hm w Hc). unfold bind.
  destruct (m w) as [[a | e] w1]; cbn [snd] in Hm |- *.
  - eapply extends_by_trans; [exact Hm |]. apply Hk, Hm.
  - exact Hm.
Qed.

Lemma respects_bind_lift (r : result A) (k : A -> M B) :
  (forall a, r = Ok a -> respects P (k a)) -> respects P (bind (lift r) k).
Proof.
  intros Hk w Hc. unfold bind, lift.
  destruct r as [a | e]; cbn [snd].
  - apply (Hk a eq_refl), Hc.
  - apply extends_by_refl, Hc.
Qed.

Lemma respects_bind_get_self (k : SGP4X -> M B) :
  (forall s, constructed s -> respects P (k s)) ->
  respects P (bind get_self k).
Proof.
  intros Hk w Hc. unfold bind, get_self. apply (Hk (self w) Hc), Hc.
Qed.

Lemma respects_try_finally (body : M A) (final : M unit) :
  respects P body -> respects P final -> respects P (try_finally body final).
Proof.
  intros Hb Hf w Hc. specialize (Hb w Hc). unfold try_finally.
  destruct (body w) as [r w1]; cbn [snd] in Hb.
  assert (Hf1 := Hf w1 (proj1 Hb)).
  destruct (final w1) as [[[] | e] w2]; cbn [snd] in Hf1 |- *;
    eapply extends_by_trans; eassumption.
Qed.
End Respects.


Lemma respects_emit (P : event -> Prop) (e : event) :
  P e -> respects P (emit e).
Proof.
  intros He w Hc. unfold emit; cbn [snd].
  apply (extends_by_intro P w _ [e]); auto.
Qed.

Lemma store_constructed (r : buf_ref) (answer : list Z) (s : SGP4X) :
  constructed s ->
  List.length answer = List.length (load r s) ->
  constructed (store r answer s).
Proof.
  intros [Hbo Hconn Hsid H3 H6 Hcmd H9] Hlen.
  destruct s, r; cbn in *; constructor; cbn;
    first [assumption | congruence].
Qed.

Lemma respects_read_to_buf (P : event -> Prop) (r : buf_ref) :
  (forall answer, P (BusRead answer)) -> respects P (read_to_buf r).
Proof.
  intros HP w Hc. unfold read_to_buf.
  destruct (pending (adapter w)) as [| answer rest];
    [apply extends_by_refl, Hc |].
  destruct (Nat.eqb_spec (List.length answer) (List.length (load r (self w))))
    as [Hlen | _]; [| apply extends_by_refl, Hc].
  cbn [snd].
  apply (extends_by_intro P w _ [BusRead answer]); auto;
    try (destruct (self w), r; reflexivity).
  apply store_constructed; assumption.
Qed.

(** ** Sending a command *)

Lemma to_bytes_2_overflow (x : Z) (byteorder : string) :
  ~ 0 <= x < 65536 -> to_bytes (Some x) 2 byteorder = Raise OverflowError.
Proof.
  intros Hx. unfold to_bytes.
  destruct (Z.ltb_spec x 0); [reflexivity |].
  change (2 ^ (8 * Z.of_nat 2)) with 65536.
  destruct (Z.leb_spec 65536 x); [reflexivity | lia].
Qed.

Lemma forallb_truthy_pair (rh t : option Z) :
  forallb truthy [rh; t] = true <->
  exists r t', rh = Some r /\ t = Some t' /\ r <> 0 /\ t' <> 0.
Proof.
  cbn [forallb]. rewrite andb_true_r, andb_true_iff. unfold truthy. split.
  - destruct rh as [r |], t as [t' |]; intros [Hr Ht]; try discriminate.
    exists r, t'. repeat split; apply Z.eqb_neq, negb_true_iff; assumption.
  - intros (r & t' & -> & -> & Hr & Ht).
    split; apply negb_true_iff, Z.eqb_neq; assumption.
Qed.

(** When a value does not fit two bytes the command is not sent: only the
    command buffer may have been written to. *)
Lemma _send_command_overflow (w : world) (cmd_code : Z)
  (raw_rel_hum raw_temp : option Z) :
  constructed (self w) ->
  (~ 0 <= cmd_code < 65536 \/
   exists r t, raw_rel_hum = Some r /\ raw_temp = Some t /\
               r <> 0 /\ t <> 0 /\
               (~ 0 <= r < 65536 \/ ~ 0 <= t < 65536)) ->
  exists cmd_buf : list Z,
    _send_command cmd_code raw_rel_hum raw_temp w
    = (Raise OverflowError,
       mk_world (set_cmd_buf cmd_buf (self w)) (adapter w)) /\
    List.length cmd_buf = 8%nat.
Proof.
  intros Hc Hbad.
  destruct w as [s ad]. cbn [self] in Hc.
  destruct Hc as [Hbo _ _ _ _ Hbuf _].
  destruct s as [conn crc sid last bo b3 b6 cmd b9].
  cbn [_byte_order _cmd_buf] in Hbo, Hbuf. subst bo.
  unfold _send_command, write. mstep.
  destruct (Z_le_dec 0 cmd_code) as [Hlo | Hlo];
    [destruct (Z_lt_dec cmd_code 65536) as [Hhi | Hhi] |].
  2-3: exists cmd; split; [| exact Hbuf];
    rewrite !to_bytes_2_overflow by lia;
    destruct (forallb truthy [raw_rel_hum; raw_temp]); mstep; reflexivity.
  destruct Hbad as [Hcode | (r & t & -> & -> & Hr & Ht & Hfit)]; [lia |].
  rewrite (proj2 (forallb_truthy_pair (Some r) (Some t)))
    by (exists r, t; auto).
  do 9 (destruct cmd as [| ? cmd]; try discriminate Hbuf).
  rewrite (to_bytes_2_big cmd_code) by lia.
  destruct (Z_le_dec 0 r) as [Hr0 | Hr0];
    [destruct (Z_lt_dec r 65536) as [Hr1 | Hr1] |].
  2-3: rewrite (to_bytes_2_overflow r) by lia; mstep;
    eexists; split; reflexivity.
  rewrite (to_bytes_2_big r), (to_bytes_2_overflow t) by lia. mstep.
  eexists; split; reflexivity.
Qed.

(** The two outcomes of [_send_command] on a constructed session. *)
Lemma _send_command_outcome (w : world) (cmd_code : Z)
  (raw_rel_hum raw_temp : option Z) :
  constructed (self w) ->
  (0 <= cmd_code < 65536 /\
   (forall r t, raw_rel_hum = Some r -> raw_temp = Some t ->
                r <> 0 -> t <> 0 -> 0 < r < 65536 /\ 0 < t < 65536) /\
   exists frame cmd_buf : list Z,
     _send_command cmd_code raw_rel_hum raw_temp w
     = (Ok tt, sent cmd_code frame cmd_buf w) /\
     List.length cmd_buf = 8%nat /\
     frame_of cmd_code frame /\
     List.length frame
     = (if forallb truthy [raw_rel_hum; raw_temp] then 8%nat else 2%nat)) \/
  ((~ 0 <= cmd_code < 65536 \/
    exists r t, raw_rel_hum = Some r /\ raw_temp = Some t /\
                r <> 0 /\ t <> 0 /\
                (~ 0 <= r < 65536 \/ ~ 0 <= t < 65536)) /\
   exists cmd_buf : list Z,
     _send_command cmd_code raw_rel_hum raw_temp w
     = (Raise OverflowError,
        mk_world (set_cmd_buf cmd_buf (self w)) (adapter w)) /\
     List.length cmd_buf = 8%nat).
Proof.
  intros Hc.
  destruct (Z_le_dec 0 cmd_code) as [Hlo | Hlo];
    [destruct (Z_lt_dec cmd_code 65536) as [Hhi | Hhi] |].
  2-3: right; split; [left; lia | apply _send_command_overflow; auto; left; lia].
  destruct (forallb truthy [raw_rel_hum; raw_temp]) eqn:Hall.
  - destruct (proj1 (forallb_truthy_pair _ _) Hall)
      as (r & t & -> & -> & Hr & Ht).
    destruct (Z_le_dec 0 r) as [Hr0 | Hr0];
      [destruct (Z_lt_dec r 65536) as [Hr1 | Hr1];
       [destruct (Z_le_dec 0 t) as [Ht0 | Ht0];
        [destruct (Z_lt_dec t 65536) as [Ht1 | Ht1] |] |] |].
    2-5: right;
      assert (Hbad : ~ 0 <= cmd_code < 65536 \/
                     exists r' t', Some r = Some r' /\ Some t = Some t' /\
                                   r' <> 0 /\ t' <> 0 /\
                                   (~ 0 <= r' < 65536 \/ ~ 0 <= t' < 65536))
        by (right; exists r, t; repeat split; auto; lia);
      split; [exact Hbad | apply _send_command_overflow; assumption].
    left. split; [lia |]. split.
    { intros r' t' [= <-] [= <-] _ _. lia. }
    exists (frame_with_params cmd_code r t), (frame_with_params cmd_code r t).
    split; [apply _send_command_with_params; auto; lia |].
    repeat split.
  - left. split; [lia |]. split.
    { intros r t -> -> Hr Ht. exfalso.
      assert (Htrue : forallb truthy [Some r; Some t] = true)
        by (apply forallb_truthy_pair; exists r, t; auto).
      congruence. }
    exists [hi cmd_code; lo cmd_code], (_cmd_buf (self w)).
    split; [| split; [apply Hc | split; reflexivity]].
    apply _send_command_bare; [assumption | lia |].
    cbn [forallb] in Hall. rewrite andb_true_r in Hall.
    apply andb_false_iff in Hall. exact Hall.
Qed.



Lemma respects_send_command (cmd_code : Z) (raw_rel_hum raw_temp : option Z) :
  respects (writes_only (frame_of cmd_code))
    (_send_command cmd_code raw_rel_hum raw_temp).
Proof.
  intros w Hc.
  destruct (_send_command_outcome w cmd_code raw_rel_hum raw_temp Hc)
    as [(Hcode & Hraw & frame & cmd_buf & Hrun & Hlen & Hframe & Hsize)
       | (Hbad & cmd_buf & Hrun & Hlen)];
    rewrite Hrun; cbn [snd].
  - apply (extends_by_intro _ w _ [BusWrite frame]);
      try (destruct w as [s ad]; destruct s; reflexivity).
    + apply sent_constructed; assumption.
    + constructor; [exact Hframe | constructor].
  - apply (extends_by_intro _ w _ []);
      try (destruct w as [s ad]; destruct s; reflexivity).
    + destruct Hc. destruct w as [s ad]. destruct s.
      constructor; assumption.
    + cbn [adapter]. rewrite app_nil_r. reflexivity.
    + constructor.
Qed.

(** ** Every operation keeps the session in order *)

(** The rules of [respects], applied down the structure of a method;
    [known] closes the calls of methods already dealt with. *)
Ltac respects_with known :=
  repeat first
    [ known
    | apply respects_ret
    | apply respects_raise
    | apply respects_lift
    | apply respects_read_to_buf; intros; exact I
    | apply respects_emit; exact I
    | apply respects_send_command
    | apply respects_bind_get_self; intros ? ?
    | apply respects_bind; [| intros ?]
    | progress cbv zeta
    | match goal with
      | |- respects _ (if ?b then _ else _) => destruct b
      | |- respects _ (match ?o with Some _ => _ | None => _ end) =>
          destruct o
      end ].

Lemma respects_get_buf_by_answ_length (P : event -> Prop) (answ_length : Z) :
  respects P (_get_buf_by_answ_length answ_length).
Proof. unfold _get_buf_by_answ_length. respects_with fail. Qed.

Lemma respects_read_answer (F : list Z -> Prop) :
  respects (writes_only F) _read_answer.
Proof.
  unfold _read_answer, get_last_cmd_code, get_sensor_id.
  respects_with ltac:(apply respects_get_buf_by_answ_length).
Qed.

Lemma respects_send_command_and_read_answer (cmd_code : Z)
  (unpack_format : string) (with_params : bool)
  (rel_hum temperature : option Z) :
  respects (writes_only (frame_of cmd_code))
    (_send_command_and_read_answer cmd_code unpack_format with_params
       rel_hum temperature).
Proof.
  unfold _send_command_and_read_answer, get_sensor_id, sleep_ms.
  respects_with ltac:(apply respects_read_answer).
Qed.

(** ** Waiting for the answer and reading it *)

Lemma _send_command_and_read_answer_bare (cmd_code : Z)
  (unpack_format : string) (w : world) :
  _send_command_and_read_answer cmd_code unpack_format false None None w
  = bind (_send_command cmd_code None None)
      (fun _ => answer_phase cmd_code unpack_format) w.
Proof. reflexivity. Qed.

Lemma answer_phase_reads (w : world) (cmd_code l wt : Z)
  (unpack_format : string) (r : buf_ref) (answer : list Z)
  (rest : list (list Z)) :
  constructed (self w) ->
  _last_cmd_code (self w) = Some cmd_code ->
  _get_answer_params (Some cmd_code) (_sensor_id (self w))
  = Ok (mk_answer_params l wt) ->
  buf_for l = Some r ->
  pending (adapter w) = answer :: rest ->
  Z.of_nat (List.length answer) = l ->
  (_check_crc (self w) = true -> _check_answer answer l = Ok true) ->
  answer_phase cmd_code unpack_format w
  = (unpack (_connector (self w)) unpack_format (Some answer),
     answered wt r answer rest w).
Proof.
  intros Hc Hlast Hap Hbuf Hpend Hlen Hcrc.
  destruct Hc as [Hbo Hconn _ H3 H6 Hcmd H9].
  destruct w as [s [tr pend]].
  destruct s as [conn crc sid last bo b3 b6 cmd b9].
  cbn [self adapter pending _sensor_id _check_crc _byte_order _connector
       _last_cmd_code _buf_3 _buf_6 _cmd_buf _buf_9] in *.
  subst bo pend last.
  unfold answer_phase, get_sensor_id, sleep_ms. mstep.
  rewrite Hap. mstep. cbn [wait_time].
  unfold _read_answer, get_last_cmd_code, get_sensor_id. mstep.
  rewrite Hap. mstep. cbn [length].
  unfold _get_buf_by_answ_length, buf_for in *.
  destruct (Z.eqb_spec 3 l) as [<- | H3l];
    [| destruct (Z.eqb_spec 6 l) as [<- | H6l];
       [| destruct (Z.eqb_spec 9 l) as [<- | H9l]; [| discriminate Hbuf]]];
    injection Hbuf as <-;
    match goal with
    | |- context [_check_answer_length ?n] =>
        change (_check_answer_length n) with (Ok tt);
        change (0 =? n) with false
    end;
    cbv iota; mstep;
    (rewrite bind_read_to_buf
      by (cbn [load _buf_3 _buf_6 _buf_9]; lia));
    mstep; unfold answered; cbn [self adapter trace pending];
    rewrite <- app_assoc; cbn [app];
    (destruct crc; [rewrite (Hcrc eq_refl) |]; mstep; reflexivity).
Qed.

Lemma sent_fields (cmd_code : Z) (frame cmd_buf : list Z) (w : world) :
  _last_cmd_code (self (sent cmd_code frame cmd_buf w)) = Some cmd_code /\
  _sensor_id (self (sent cmd_code frame cmd_buf w)) = _sensor_id (self w) /\
  _check_crc (self (sent cmd_code frame cmd_buf w)) = _check_crc (self w) /\
  _connector (self (sent cmd_code frame cmd_buf w)) = _connector (self w) /\
  pending (adapter (sent cmd_code frame cmd_buf w)) = pending (adapter w).
Proof. destruct w as [s ad]. destruct s. repeat split. Qed.

(** A command without parameters, answered well. *)
Lemma bare_command_answer (w : world) (cmd_code l wt : Z)
  (unpack_format : string) (r : buf_ref) (answer : list Z)
  (rest : list (list Z)) :
  constructed (self w) ->
  0 <= cmd_code < 65536 ->
  _get_answer_params (Some cmd_code) (_sensor_id (self w))
  = Ok (mk_answer_params l wt) ->
  buf_for l = Some r ->
  pending (adapter w) = answer :: rest ->
  Z.of_nat (List.length answer) = l ->
  (_check_crc (self w) = true -> _check_answer answer l = Ok true) ->
  _send_command_and_read_answer cmd_code unpack_format false None None w
  = (unpack (_connector (self w)) unpack_format (Some answer),
     answered wt r answer rest
       (sent cmd_code [hi cmd_code; lo cmd_code] (_cmd_buf (self w)) w)).
Proof.
  intros Hc Hcode Hap Hbuf Hpend Hlen Hcrc.
  rewrite _send_command_and_read_answer_bare.
  rewrite (bind_ok _ _ _ _ _
             (_send_command_bare w cmd_code None None Hc Hcode
                (or_introl eq_refl))).
  destruct (sent_fields cmd_code [hi cmd_code; lo cmd_code]
              (_cmd_buf (self w)) w)
    as (Hlast & Hsid & Hcrc' & Hconn & Hpend').
  rewrite <- Hconn.
  apply (answer_phase_reads _ cmd_code l wt);
    first [ assumption | congruence
          | apply sent_constructed; [assumption | apply Hc] ].
Qed.

Lemma unpack_HB (dev : DeviceEx) (a0 a1 a2 : Z) :
  big_byte_order dev = true ->
  unpack dev "HB" (Some [a0; a1; a2]) = Ok [256 * a0 + a1; a2].
Proof. intros H. unfold unpack. rewrite H. reflexivity. Qed.

Lemma unpack_HBHBH (dev : DeviceEx) (a0 a1 a2 a3 a4 a5 a6 a7 a8 : Z) :
  big_byte_order dev = true ->
  unpack dev "HBHBH" (Some [a0; a1; a2; a3; a4; a5; a6; a7; a8])
  = Ok [256 * a0 + a1; a2; 256 * a3 + a4; a5; 256 * a6 + a7].
Proof. intros H. unfold unpack. rewrite H. reflexivity. Qed.

Lemma _get_answer_params_any_variant (sensor_id : Z) :
  sensor_id = 0 \/ sensor_id = 1 ->
  _get_answer_params (Some _cmd_execute_self_test) sensor_id
  = Ok (mk_answer_params 3 320) /\
  _get_answer_params (Some _cmd_get_serial_number) sensor_id
  = Ok (mk_answer_params 9 1) /\
  _get_answer_params (Some _cmd_turn_heater_off) sensor_id
  = Ok (mk_answer_params 0 1).
Proof. intros [-> | ->]; repeat split. Qed.

(** ** Self test and serial number *)

(** X5: on a constructed session of either variant, when the sensor's next
    answer is three bytes that pass the CRC check (or the check is off),
    [execute_self_test] returns the answer's 16-bit word; what happened on
    the bus is the write of [0x28, 0x0E], a wait of 320 ms and the read of
    the answer, which now fills the 3-byte buffer. *)
Theorem execute_self_test_returns_the_word :
  forall (w : world) (a0 a1 a2 : Z) (rest : list (list Z)),
    constructed (self w) ->
    pending (adapter w) = [a0; a1; a2] :: rest ->
    (_check_crc (self w) = true -> _check_answer [a0; a1; a2] 3 = Ok true) ->
    exists w' : world,
      execute_self_test w = (Ok (256 * a0 + a1), w') /\
      trace (adapter w')
      = trace (adapter w)
        ++ [BusWrite [0x28; 0x0E]; SleepMs 320; BusRead [a0; a1; a2]] /\
      pending (adapter w') = rest /\
      _buf_3 (self w') = [a0; a1; a2] /\
      _last_cmd_code (self w') = Some _cmd_execute_self_test.
Proof.
  intros w a0 a1 a2 rest Hc Hpend Hcrc.
  assert (Hcode : 0 <= _cmd_execute_self_test < 65536)
    by (unfold _cmd_execute_self_test; lia).
  destruct (_get_answer_params_any_variant _ (constructed_sensor_id _ Hc))
    as (Hap & _ & _).
  pose proof (bare_command_answer w _cmd_execute_self_test 3 320 "HB" Buf3
                [a0; a1; a2] rest Hc Hcode Hap eq_refl Hpend eq_refl Hcrc)
    as Hrun.
  rewrite (unpack_HB _ _ _ _ (constructed_connector _ Hc)) in Hrun.
  eexists. split.
  - unfold execute_self_test. rewrite (bind_ok _ _ _ _ _ Hrun). reflexivity.
  - destruct w as [s [tr pend]]. destruct s.
    cbn. rewrite <- app_assoc. repeat split.
Qed.

Lemma execute_self_test_returns_the_word_witness :
  exists w' : world,
    execute_self_test (fresh_world 1 true [[0xD4; 0x00; 0xC6]])
    = (Ok (256 * 0xD4 + 0x00), w') /\
    trace (adapter w')
    = trace (adapter (fresh_world 1 true [[0xD4; 0x00; 0xC6]]))
      ++ [BusWrite [0x28; 0x0E]; SleepMs 320; BusRead [0xD4; 0x00; 0xC6]] /\
    pending (adapter w') = [] /\
    _buf_3 (self w') = [0xD4; 0x00; 0xC6] /\
    _last_cmd_code (self w') = Some _cmd_execute_self_test.
Proof.
  apply (execute_self_test_returns_the_word
           (fresh_world 1 true [[0xD4; 0x00; 0xC6]]) 0xD4 0x00 0xC6 []).
  - apply initial_constructed. right; reflexivity.
  - reflexivity.
  - intros _. vm_compute. reflexivity.
Defined.

(** X6: on a constructed session, when the sensor's next answer is nine
    bytes whose three groups pass the CRC check (or the check is off),
    [get_id] returns the three 16-bit words of the groups; the bus saw the
    write of [0x36, 0x82], a wait of 1 ms and the read.  The ninth byte, the
    checksum of the third word, is checked but not unpacked. *)
Theorem get_id_returns_three_words :
  forall (w : world) (answer : list Z) (rest : list (list Z)),
    constructed (self w) ->
    pending (adapter w) = answer :: rest ->
    List.length answer = 9%nat ->
    (_check_crc (self w) = true -> _check_answer answer 9 = Ok true) ->
    exists w' : world,
      get_id w
      = (Ok (mk_serial_number (data_word answer 0) (data_word answer 1)
               (data_word answer 2)), w') /\
      trace (adapter w')
      = trace (adapter w)
        ++ [BusWrite [0x36; 0x82]; SleepMs 1; BusRead answer] /\
      pending (adapter w') = rest /\
      _buf_9 (self w') = answer.
Proof.
  intros w answer rest Hc Hpend Hlen Hcrc.
  assert (Hcode : 0 <= _cmd_get_serial_number < 65536)
    by (unfold _cmd_get_serial_number; lia).
  destruct (_get_answer_params_any_variant _ (constructed_sensor_id _ Hc))
    as (_ & Hap & _).
  assert (Hlen' : Z.of_nat (List.length answer) = 9) by (rewrite Hlen; reflexivity).
  pose proof (bare_command_answer w _cmd_get_serial_number 9 1 "HBHBH" Buf9
                answer rest Hc Hcode Hap eq_refl Hpend Hlen' Hcrc)
    as Hrun.
  destruct answer as [| a0 [| a1 [| a2 [| a3 [| a4 [| a5 [| a6 [| a7
                     [| a8 [| a9 answer]]]]]]]]]]; try discriminate Hlen.
  rewrite (unpack_HBHBH _ _ _ _ _ _ _ _ _ _ (constructed_connector _ Hc))
    in Hrun.
  eexists. split.
  - unfold get_id. rewrite (bind_ok _ _ _ _ _ Hrun). reflexivity.
  - destruct w as [s [tr pend]]. destruct s.
    cbn. rewrite <- app_assoc. repeat split.
Qed.

Lemma get_id_returns_three_words_witness :
  exists w' : world,
    get_id (fresh_world 0 false
              [[0x00; 0x00; 0x81; 0x02; 0x5F; 0x2C; 0xA1; 0xB2; 0x00]])
    = (Ok (mk_serial_number 0x0000 0x025F 0xA1B2), w') /\
    trace (adapter w')
    = [BusWrite [0x36; 0x82]; SleepMs 1;
       BusRead [0x00; 0x00; 0x81; 0x02; 0x5F; 0x2C; 0xA1; 0xB2; 0x00]] /\
    pending (adapter w') = [] /\
    _buf_9 (self w') = [0x00; 0x00; 0x81; 0x02; 0x5F; 0x2C; 0xA1; 0xB2; 0x00].
Proof.
  apply (get_id_returns_three_words
           (fresh_world 0 false
              [[0x00; 0x00; 0x81; 0x02; 0x5F; 0x2C; 0xA1; 0xB2; 0x00]])
           [0x00; 0x00; 0x81; 0x02; 0x5F; 0x2C; 0xA1; 0xB2; 0x00] []).
  - apply initial_constructed. left; reflexivity.
  - reflexivity.
  - reflexivity.
  - discriminate.
Defined.

(** ** Conditioning on the SGP41 *)

(** X7: on a constructed SGP41 session (sensor id 1), with compensation
    values in range and a next answer of three bytes that pass the CRC check
    (or the check off), [execute_conditioning] returns VOC = the answer's
    16-bit word and NOx = None; the bus saw one frame opening with
    [0x26, 0x12] (the full 8-byte frame for [rh >= 1], [t >= -44]), a wait
    of 50 ms and the read. *)
Theorem execute_conditioning_on_sgp41 :
  forall (w : world) (rh t a0 a1 a2 : Z) (rest : list (list Z)),
    constructed (self w) ->
    _sensor_id (self w) = 1 ->
    0 <= rh <= 100 -> -45 <= t <= 130 ->
    pending (adapter w) = [a0; a1; a2] :: rest ->
    (_check_crc (self w) = true -> _check_answer [a0; a1; a2] 3 = Ok true) ->
    exists (raw_rh raw_temp : Z) (frame : list Z) (w' : world),
      _get_raw_relhum rh = Ok raw_rh /\
      _get_raw_temp t = Ok raw_temp /\
      execute_conditioning rh t w
      = (Ok (mk_measured_values (256 * a0 + a1) None), w') /\
      trace (adapter w')
      = trace (adapter w)
        ++ [BusWrite frame; SleepMs 50; BusRead [a0; a1; a2]] /\
      (1 <= rh -> -44 <= t ->
       frame = frame_with_params _cmd_execute_conditioning raw_rh raw_temp) /\
      (rh = 0 \/ t = -45 -> frame = [0x26; 0x12]) /\
      pending (adapter w') = rest.
Proof.
  intros w rh t a0 a1 a2 rest Hc Hsid Hrh Ht Hpend Hcrc.
  assert (Hcode : 0 <= _cmd_execute_conditioning < 65536)
    by (unfold _cmd_execute_conditioning; lia).
  destruct (_send_command_and_read_answer_sends w _cmd_execute_conditioning
              "HB" rh t Hc Hcode Hrh Ht)
    as (raw_rh & raw_temp & frame & cmd_buf & Hraw_rh & Hraw_t & Hlen
        & Hfull & Hbare & Hrun).
  destruct (sent_fields _cmd_execute_conditioning frame cmd_buf w)
    as (Hlast' & Hsid' & Hcrc' & Hconn' & Hpend').
  assert (Hphase :
            answer_phase _cmd_execute_conditioning "HB"
              (sent _cmd_execute_conditioning frame cmd_buf w)
            = (Ok [256 * a0 + a1; a2],
               answered 50 Buf3 [a0; a1; a2] rest
                 (sent _cmd_execute_conditioning frame cmd_buf w))).
  { rewrite <- (unpack_HB (_connector
                             (self (sent _cmd_execute_conditioning frame
                                      cmd_buf w))) a0 a1 a2)
      by (rewrite Hconn'; apply Hc).
    apply (answer_phase_reads _ _cmd_execute_conditioning 3 50);
      first [ assumption | congruence | reflexivity
            | apply sent_constructed; assumption
            | rewrite Hsid', Hsid; reflexivity ]. }
  exists raw_rh, raw_temp, frame.
  eexists. split; [exact Hraw_rh |]. split; [exact Hraw_t |]. split.
  - unfold execute_conditioning.
    erewrite bind_ok; [| rewrite Hrun; exact Hphase].
    reflexivity.
  - destruct w as [s [tr pend]]. destruct s.
    cbn. rewrite <- app_assoc. repeat split; assumption.
Qed.

Lemma execute_conditioning_on_sgp41_witness :
  exists (raw_rh raw_temp : Z) (frame : list Z) (w' : world),
    _get_raw_relhum 50 = Ok raw_rh /\
    _get_raw_temp 25 = Ok raw_temp /\
    execute_conditioning 50 25 (fresh_world 1 true [[0xBE; 0xEF; 0x92]])
    = (Ok (mk_measured_values (256 * 0xBE + 0xEF) None), w') /\
    trace (adapter w')
    = trace (adapter (fresh_world 1 true [[0xBE; 0xEF; 0x92]]))
      ++ [BusWrite frame; SleepMs 50; BusRead [0xBE; 0xEF; 0x92]] /\
    (1 <= 50 -> -44 <= 25 ->
     frame = frame_with_params _cmd_execute_conditioning raw_rh raw_temp) /\
    (50 = 0 \/ 25 = -45 -> frame = [0x26; 0x12]) /\
    pending (adapter w') = [].
Proof.
  apply (execute_conditioning_on_sgp41
           (fresh_world 1 true [[0xBE; 0xEF; 0x92]]) 50 25 0xBE 0xEF 0x92 []).
  - apply initial_constructed. right; reflexivity.
  - reflexivity.
  - lia.
  - lia.
  - reflexivity.
  - intros _. vm_compute. reflexivity.
Defined.

(** ** Heater off, and reading with nothing asked *)



(** X4: [_read_answer] on a session that has sent no command yet (the last
    command code is None) raises the ValueError of the metadata lookup, on
    the code None; nothing is read from the bus and nothing changes. *)
Theorem read_answer_before_any_command :
  forall w : world,
    _last_cmd_code (self w) = None ->
    _read_answer w
    = (Raise (ValueError (MsgBadCommand None (_sensor_id (self w)))), w).
Proof.
  intros w Hlast.
  destruct w as [s ad]. destruct s as [conn crc sid last bo b3 b6 cmd b9].
  cbn [self _last_cmd_code] in Hlast. subst last.
  unfold _read_answer, get_last_cmd_code, get_sensor_id. mstep.
  unfold _get_answer_params, eq_code.
  rewrite andb_false_r. mstep. reflexivity.
Qed.

Lemma read_answer_before_any_command_witness :
  _read_answer (fresh_world 1 true [[0xBE; 0xEF; 0x92]])
  = (Raise (ValueError (MsgBadCommand None 1)),
     fresh_world 1 true [[0xBE; 0xEF; 0x92]]).
Proof.
  apply (read_answer_before_any_command
           (fresh_world 1 true [[0xBE; 0xEF; 0x92]])).
  reflexivity.
Defined.

(** ** Range checks *)

(** X1: [_check_rh_temp] checks one value only.  A nonzero temperature is
    the value checked, against -45..130, and the humidity is then not looked
    at; with the temperature 0 or None, a nonzero humidity is checked
    against 0..100; with both 0 or None nothing is checked.  A failed check
    is the ValueError on the range. *)
Theorem check_rh_temp_checks_one_value :
  forall rh temp : option Z,
    (forall t, temp = Some t -> t <> 0 ->
       _check_rh_temp rh temp
       = if (-45 <=? t) && (t <? 131) then Ok tt
         else Raise (ValueError MsgOutOfRange)) /\
    (truthy temp = false ->
     forall r, rh = Some r -> r <> 0 ->
       _check_rh_temp rh temp
       = if (0 <=? r) && (r <? 101) then Ok tt
         else Raise (ValueError MsgOutOfRange)) /\
    (truthy temp = false -> truthy rh = false ->
     _check_rh_temp rh temp = Ok tt).
Proof.
  intros rh temp. unfold _check_rh_temp, check_value, contains.
  split; [| split].
  - intros t -> Ht. cbn [truthy].
    destruct (Z.eqb_spec t 0) as [| _]; [contradiction |]. cbn [negb].
    destruct (truthy rh); cbn [start stop];
      destruct ((-45 <=? t) && (t <? 131)); reflexivity.
  - intros Htemp r -> Hr. rewrite Htemp. cbn [truthy].
    destruct (Z.eqb_spec r 0) as [| _]; [contradiction |]. cbn [negb].
    cbn [start stop]. destruct ((0 <=? r) && (r <? 101)); reflexivity.
  - intros -> ->. reflexivity.
Qed.

Lemma check_rh_temp_checks_one_value_witness :
  _check_rh_temp (Some 200) (Some 25) = Ok tt.
Proof.
  apply (proj1 (check_rh_temp_checks_one_value (Some 200) (Some 25)) 25).
  - reflexivity.
  - discriminate.
Defined.

(** X9: compensation values outside 0..100 and -45..130 are refused by
    [measure_raw_signal] and by [execute_conditioning] with the ValueError
    on the range, on any session and either variant, before anything
    happens: no write, no wait, no read, and the session as it was. *)
Theorem out_of_range_values_cause_no_traffic :
  forall (w : world) (rh t : Z),
    ~ (0 <= rh <= 100 /\ -45 <= t <= 130) ->
    measure_raw_signal rh t w = (Raise (ValueError MsgOutOfRange), w) /\
    execute_conditioning rh t w = (Raise (ValueError MsgOutOfRange), w).
Proof.
  intros w rh t Hout. split.
  - apply measure_raw_signal_rejects, Hout.
  - unfold execute_conditioning. apply bind_fail.
    apply _send_command_and_read_answer_rejects, Hout.
Qed.

Lemma out_of_range_values_cause_no_traffic_witness :
  measure_raw_signal 101 25 (fresh_world 0 true [[0xBE; 0xEF; 0x92]])
  = (Raise (ValueError MsgOutOfRange),
     fresh_world 0 true [[0xBE; 0xEF; 0x92]]) /\
  execute_conditioning 101 25 (fresh_world 0 true [[0xBE; 0xEF; 0x92]])
  = (Raise (ValueError MsgOutOfRange),
     fresh_world 0 true [[0xBE; 0xEF; 0x92]]).
Proof.
  apply (out_of_range_values_cause_no_traffic
           (fresh_world 0 true [[0xBE; 0xEF; 0x92]]) 101 25).
  lia.
Defined.

(** ** The answer buffers *)

(** X10: on a constructed session [_get_buf_by_answ_length] hands out, for
    the lengths 3, 6 and 9, a buffer of exactly that many bytes, and None
    for 0; any other length raises the ValueError on the answer length (the
    closing [raise] on the buffer length is never reached).  The session
    and the bus are not touched. *)
Theorem get_buf_by_answ_length_fits :
  forall (w : world) (answ_length : Z),
    constructed (self w) ->
    snd (_get_buf_by_answ_length answ_length w) = w /\
    (answ_length = 0 ->
     fst (_get_buf_by_answ_length answ_length w) = Ok None) /\
    (In answ_length [3; 6; 9] ->
     exists r : buf_ref,
       fst (_get_buf_by_answ_length answ_length w) = Ok (Some r) /\
       Z.of_nat (List.length (load r (self w))) = answ_length) /\
    (~ In answ_length [0; 3; 6; 9] ->
     fst (_get_buf_by_answ_length answ_length w)
     = Raise (ValueError (MsgBadAnswerLength answ_length))).
Proof.
  intros w answ_length [_ _ _ H3 H6 _ H9].
  unfold _get_buf_by_answ_length.
  split; [| split; [| split]].
  - unfold bind, lift. destruct (_check_answer_length answ_length);
      [| reflexivity].
    repeat match goal with
           | |- context [if ?b then _ else _] => destruct b
           end; reflexivity.
  - intros ->. reflexivity.
  - intros [<- | [<- | [<- | []]]];
      [exists Buf3 | exists Buf6 | exists Buf9];
      (split; [reflexivity | cbn [load]; lia]).
  - intros Hbad. rewrite (_check_answer_length_bad _ Hbad). reflexivity.
Qed.

Lemma get_buf_by_answ_length_fits_witness :
  snd (_get_buf_by_answ_length 4 (fresh_world 0 true [])) = fresh_world 0 true [] /\
  fst (_get_buf_by_answ_length 4 (fresh_world 0 true []))
  = Raise (ValueError (MsgBadAnswerLength 4)).
Proof.
  assert (Hc : constructed (self (fresh_world 0 true [])))
    by (apply initial_constructed; left; reflexivity).
  destruct (get_buf_by_answ_length_fits (fresh_world 0 true []) 4 Hc)
    as (Hw & _ & _ & Hbad).
  split; [exact Hw |]. apply Hbad.
  cbn. intros [H | [H | [H | [H | []]]]]; discriminate H.
Defined.

(** ** The operations of the driver *)

Lemma respects_get_id :
  respects (writes_only (frame_of _cmd_get_serial_number)) get_id.
Proof.
  unfold get_id.
  respects_with ltac:(apply respects_send_command_and_read_answer).
Qed.

Lemma respects_turn_heater_off :
  respects (writes_only (frame_of _cmd_turn_heater_off)) turn_heater_off.
Proof. apply respects_send_command. Qed.

Lemma respects_execute_self_test :
  respects (writes_only (frame_of _cmd_execute_self_test)) execute_self_test.
Proof.
  unfold execute_self_test.
  respects_with ltac:(apply respects_send_command_and_read_answer).
Qed.

Lemma respects_execute_conditioning (rh t : Z) :
  respects (writes_only (frame_of _cmd_execute_conditioning))
    (execute_conditioning rh t).
Proof.
  unfold execute_conditioning.
  respects_with ltac:(apply respects_send_command_and_read_answer).
Qed.

Lemma respects_measure_raw_signal (rh t : Z) :
  respects (writes_only (frame_of _cmd_measure_raw_signal))
    (measure_raw_signal rh t).
Proof.
  unfold measure_raw_signal, get_sensor_id.
  respects_with ltac:(apply respects_send_command_and_read_answer).
Qed.

(** X8: every operation of the driver, whatever its arguments, the sensor's
    answers and its own outcome (a result or an exception), leaves a
    constructed session constructed (byte order and buffer sizes as
    [__init__] set them), leaves the connector, the CRC flag and the sensor
    id as they were, only adds to the bus trace, and writes only frames that
    open with its own command code. *)
Theorem operations_keep_the_session :
  forall (w : world) (rh t : Z),
    constructed (self w) ->
    extends_by (writes_only (frame_of _cmd_get_serial_number))
      w (snd (get_id w)) /\
    extends_by (writes_only (frame_of _cmd_turn_heater_off))
      w (snd (turn_heater_off w)) /\
    extends_by (writes_only (frame_of _cmd_execute_self_test))
      w (snd (execute_self_test w)) /\
    extends_by (writes_only (frame_of _cmd_execute_conditioning))
      w (snd (execute_conditioning rh t w)) /\
    extends_by (writes_only (frame_of _cmd_measure_raw_signal))
      w (snd (measure_raw_signal rh t w)).
Proof.
  intros w rh t Hc.
  split; [| split; [| split; [| split]]].
  - apply respects_get_id, Hc.
  - apply respects_turn_heater_off, Hc.
  - apply respects_execute_self_test, Hc.
  - apply respects_execute_conditioning, Hc.
  - apply respects_measure_raw_signal, Hc.
Qed.

Lemma operations_keep_the_session_witness :
  extends_by (writes_only (frame_of _cmd_measure_raw_signal))
    (fresh_world 1 true [[0xBE; 0xEF; 0x93]])
    (snd (measure_raw_signal 50 25 (fresh_world 1 true [[0xBE; 0xEF; 0x93]]))).
Proof.
  apply (operations_keep_the_session
           (fresh_world 1 true [[0xBE; 0xEF; 0x93]]) 50 25).
  apply initial_constructed. right; reflexivity.
Defined.

(** ** The script *)

Section RespectsOn.
Context {A B : Type} (S : Z -> Prop) (P : event -> Prop).



End RespectsOn.








(** ** A corrupted answer *)

Lemma answer_phase_bad_crc (w : world) (cmd_code l wt : Z)
  (unpack_format : string) (r : buf_ref) (answer : list Z)
  (rest : list (list Z)) (e : exn) :
  constructed (self w) ->
  _last_cmd_code (self w) = Some cmd_code ->
  _get_answer_params (Some cmd_code) (_sensor_id (self w))
  = Ok (mk_answer_params l wt) ->
  buf_for l = Some r ->
  pending (adapter w) = answer :: rest ->
  Z.of_nat (List.length answer) = l ->
  _check_crc (self w) = true ->
  _check_answer answer l = Raise e ->
  answer_phase cmd_code unpack_format w
  = (Raise e, answered wt r answer rest w).
Proof.
  intros Hc Hlast Hap Hbuf Hpend Hlen Hcrc Hbad.
  destruct Hc as [Hbo Hconn _ H3 H6 Hcmd H9].
  destruct w as [s [tr pend]].
  destruct s as [conn crc sid last bo b3 b6 cmd b9].
  cbn [self adapter pending _sensor_id _check_crc _byte_order _connector
       _last_cmd_code _buf_3 _buf_6 _cmd_buf _buf_9] in *.
  subst bo pend last crc.
  unfold answer_phase, get_sensor_id, sleep_ms. mstep.
  rewrite Hap. mstep. cbn [wait_time].
  unfold _read_answer, get_last_cmd_code, get_sensor_id. mstep.
  rewrite Hap. mstep. cbn [length].
  unfold _get_buf_by_answ_length, buf_for in *.
  destruct (Z.eqb_spec 3 l) as [<- | H3l];
    [| destruct (Z.eqb_spec 6 l) as [<- | H6l];
       [| destruct (Z.eqb_spec 9 l) as [<- | H9l]; [| discriminate Hbuf]]];
    injection Hbuf as <-;
    match goal with
    | |- context [_check_answer_length ?n] =>
        change (_check_answer_length n) with (Ok tt);
        change (0 =? n) with false
    end;
    cbv iota; mstep;
    (rewrite bind_read_to_buf
      by (cbn [load _buf_3 _buf_6 _buf_9]; lia));
    mstep; unfold answered; cbn [self adapter trace pending];
    rewrite <- app_assoc; cbn [app];
    rewrite Hbad; mstep; reflexivity.
Qed.

Lemma _check_answer_one_group (a0 a1 a2 : Z) :
  _check_answer [a0; a1; a2] 3 =
  if _calc_crc [a0; a1] =? a2 then Ok true
  else Raise (ValueError (MsgBadCrc (_calc_crc [a0; a1]) a2 3)).
Proof.
  rewrite (_check_answer_unfold [a0; a1; a2] 3) by (cbn; tauto).
  change (seq 0 (Z.to_nat (3 / 3))) with ([] ++ [0%nat]).
  rewrite check_places_first_failure by (intros j []).
  change (stored_crc [a0; a1; a2] 0) with (Some a2).
  change (data_pair [a0; a1; a2] 0) with [a0; a1].
  cbv beta iota.
  destruct (_calc_crc [a0; a1] =? a2); reflexivity.
Qed.

(** X12: with the CRC checked, a self-test answer whose third byte is not
    the checksum of the first two makes [execute_self_test] raise the
    ValueError on the CRC, naming the computed and the received checksum.
    By then the command was written, the 320 ms were waited and the answer
    was read: it is used up, and the 3-byte buffer holds the corrupted
    bytes. *)
Theorem execute_self_test_refuses_a_corrupted_answer :
  forall (w : world) (a0 a1 a2 : Z) (rest : list (list Z)),
    constructed (self w) ->
    _check_crc (self w) = true ->
    pending (adapter w) = [a0; a1; a2] :: rest ->
    a2 <> _calc_crc [a0; a1] ->
    exists w' : world,
      execute_self_test w
      = (Raise (ValueError (MsgBadCrc (_calc_crc [a0; a1]) a2 3)), w') /\
      trace (adapter w')
      = trace (adapter w)
        ++ [BusWrite [0x28; 0x0E]; SleepMs 320; BusRead [a0; a1; a2]] /\
      pending (adapter w') = rest /\
      _buf_3 (self w') = [a0; a1; a2].
Proof.
  intros w a0 a1 a2 rest Hc Hcrc Hpend Hne.
  assert (Hcode : 0 <= _cmd_execute_self_test < 65536)
    by (unfold _cmd_execute_self_test; lia).
  destruct (_get_answer_params_any_variant _ (constructed_sensor_id _ Hc))
    as (Hap & _ & _).
  destruct (sent_fields _cmd_execute_self_test
              [hi _cmd_execute_self_test; lo _cmd_execute_self_test]
              (_cmd_buf (self w)) w)
    as (Hlast' & Hsid' & Hcrc' & Hconn' & Hpend').
  assert (Hbad : _check_answer [a0; a1; a2] 3
                 = Raise (ValueError (MsgBadCrc (_calc_crc [a0; a1]) a2 3))).
  { rewrite _check_answer_one_group.
    destruct (Z.eqb_spec (_calc_crc [a0; a1]) a2); [congruence | reflexivity]. }
  eexists. split.
  - unfold execute_self_test. apply bind_fail.
    rewrite _send_command_and_read_answer_bare.
    rewrite (bind_ok _ _ _ _ _
               (_send_command_bare w _cmd_execute_self_test None None Hc Hcode
                  (or_introl eq_refl))).
    apply (answer_phase_bad_crc _ _cmd_execute_self_test 3 320 "HB" Buf3
             [a0; a1; a2] rest);
      first [ assumption | congruence | reflexivity
            | apply sent_constructed; [assumption | apply Hc] ].
  - destruct w as [s [tr pend]]. destruct s.
    cbn. rewrite <- app_assoc. repeat split; assumption.
Qed.

Lemma execute_self_test_refuses_a_corrupted_answer_witness :
  exists w' : world,
    execute_self_test (fresh_world 0 true [[0xD4; 0x00; 0xC7]])
    = (Raise (ValueError (MsgBadCrc (_calc_crc [0xD4; 0x00]) 0xC7 3)), w') /\
    trace (adapter w')
    = trace (adapter (fresh_world 0 true [[0xD4; 0x00; 0xC7]]))
      ++ [BusWrite [0x28; 0x0E]; SleepMs 320; BusRead [0xD4; 0x00; 0xC7]] /\
    pending (adapter w') = [] /\
    _buf_3 (self w') = [0xD4; 0x00; 0xC7].
Proof.
  apply (execute_self_test_refuses_a_corrupted_answer
           (fresh_world 0 true [[0xD4; 0x00; 0xC7]]) 0xD4 0x00 0xC7 []).
  - apply initial_constructed. left; reflexivity.
  - reflexivity.
  - reflexivity.
  - vm_compute. discriminate.
Defined.
